(** * Live preview: navigation controller, display surface and history

    A shallow embedding of
      - [src/editorPreview/webviewComm.ts]  (class [WebviewComm], the
        navigation controller of one preview panel),
      - [media/main.js]                     (the script of the display
        surface: window-message listener, socket listener, UI handlers),
    together with a model of the page history ([PageHistory], module
    [pageHistoryTracker]) that the controller imports.

    JavaScript strings are [string]; array indices and the history cursor
    are [Z]; objects sent over a channel are kept as values ([JVal]), a
    JSON text being represented by the value it encodes. *)

From Stdlib Require Import Strings.String Strings.Ascii.
From Stdlib Require Import Lists.List.
From Stdlib Require Import ZArith.
From Stdlib Require Import Bool.
From Stdlib Require Import Lia.
From Stdlib Require Import Sorting.Permutation.
Import ListNotations.

Local Open Scope string_scope.
Local Open Scope list_scope.
Local Set Warnings "-register-all".

(** ** JavaScript string primitives used by the sources *)

Module JsString.

(** [s[0] == c] on a possibly empty string ([undefined == c] is false). *)
Definition charAt0_is (c : ascii) (s : string) : bool :=
  match String.get 0 s with
  | Some d => Ascii.eqb d c
  | None => false
  end.

(** [s.substring(n)] and [s.substr(n)] for [0 <= n]: the characters from
    index [n] to the end. *)
Definition substring_from (n : nat) (s : string) : string :=
  String.substring n (String.length s - n) s.

(** [s.startsWith(p)]. *)
Definition startsWith (p s : string) : bool := String.prefix p s.

(** A white-space character (space, tab, line feed, vertical tab, form
    feed, carriage return). *)
Definition isSpace (c : ascii) : bool :=
  let n := nat_of_ascii c in
  Nat.eqb n 32 || (Nat.leb 9 n && Nat.leb n 13).

(** An address that is empty or consists only of white space. *)
Definition isBlank (s : string) : bool :=
  forallb isSpace (list_ascii_of_string s).

End JsString.

(** ** Navigation actions and history responses ([pageHistoryTracker]) *)

(** The enum [NavEditCommands], with the four members the controller's
    [switch] in [handleNavAction] distinguishes. *)
Inductive NavEditCommands : Type :=
| DISABLE_BACK
| ENABLE_BACK
| DISABLE_FORWARD
| ENABLE_FORWARD.

(** The object a history call returns: [response.actions] and the optional
    [response.address] ([None] is [undefined]). *)
Record NavResponse : Type := mkNavResponse {
  actions : list NavEditCommands;
  address : option string
}.

(** The interface of [PageHistory] as [WebviewComm] uses it:
    [new PageHistory()], [addHistory] (whose result the controller tests
    with [if (response)], so it may be [undefined]), [goForward],
    [goBackward] and the getter [currentCommands]. *)
Class PageHistory (H : Type) : Type := {
  newPageHistory : H;
  addHistory : string -> H -> H * option NavResponse;
  goForward : H -> H * NavResponse;
  goBackward : H -> H * NavResponse;
  currentCommands : H -> list NavEditCommands
}.

(** ** The history stack *)

Module HistoryStack.

Local Open Scope Z_scope.

(** Modelled from the spec: the file [pageHistoryTracker.ts] that defines
    [PageHistory] is missing; this is HistoryStack of section 3 and 4.1:
    [entries], the visited addresses in navigation order, and [cursor],
    the index of the displayed entry. *)
Record t : Type := mk {
  entries : list string;
  cursor : Z
}.

Definition size (h : t) : Z := Z.of_nat (List.length (entries h)).

(** Modelled from the spec: the missing [PageHistory] constructor; a
    history before the first navigation ("start with no history"). *)
Definition empty : t := {| entries := []; cursor := 0 |}.

Definition isEmpty (h : t) : bool :=
  match entries h with [] => true | _ :: _ => false end.

(** Modelled from the spec: the missing "can go back" test behind the
    NavActions; going back is possible unless [goBack] fails. *)
Definition canGoBack (h : t) : bool :=
  negb (isEmpty h) && negb (cursor h =? 0).

(** Modelled from the spec: the missing "can go forward" test; going
    forward is possible unless [goForward] fails. *)
Definition canGoForward (h : t) : bool :=
  negb (isEmpty h) && negb (cursor h =? size h - 1).

(** Modelled from the spec: the missing before/after comparison that
    derives NavActions (section 3, NavAction; section 9): a direction
    is reported only when its availability changed; the forward
    direction comes first, as in the scenario of section 8
    ([ENABLE_FORWARD, DISABLE_BACK]). *)
Definition navDelta (before after : t) : list NavEditCommands :=
  (match canGoForward before, canGoForward after with
   | false, true => [ENABLE_FORWARD]
   | true, false => [DISABLE_FORWARD]
   | _, _ => []
   end) ++
  (match canGoBack before, canGoBack after with
   | false, true => [ENABLE_BACK]
   | true, false => [DISABLE_BACK]
   | _, _ => []
   end).

(** The entry at an index ([undefined] out of range). *)
Definition entryAt (h : t) (i : Z) : option string :=
  if i <? 0 then None else nth_error (entries h) (Z.to_nat i).

(** Modelled from the spec: the missing [addHistory], which is
    [recordNavigation] of section 4.1: discard the entries beyond
    [cursor], append [address] as the new tail, move [cursor] to it. *)
Definition recordNavigation (address : string) (h : t) : t * NavResponse :=
  let kept := firstn (Z.to_nat (cursor h + 1)) (entries h) in
  let es := kept ++ [address] in
  let h' := {| entries := es; cursor := Z.of_nat (List.length es) - 1 |} in
  (h', {| actions := navDelta h h'; address := None |}).

(** Modelled from the spec: the missing [goBackward], which is [goBack]
    of section 4.1: a no-op returning [address: undefined] when
    [cursor == 0] (and when there is no history at all, where both
    directions are disabled); otherwise the cursor is decremented. *)
Definition goBack (h : t) : t * NavResponse :=
  if isEmpty h || (cursor h =? 0) then
    (h, {| actions := []; address := None |})
  else
    let h' := {| entries := entries h; cursor := cursor h - 1 |} in
    (h', {| actions := navDelta h h'; address := entryAt h' (cursor h') |}).

(** Modelled from the spec: the missing [goForward] of section 4.1: a
    no-op when [cursor == entries.length - 1] (and when there is no
    history at all); otherwise the cursor is incremented. *)
Definition goForward (h : t) : t * NavResponse :=
  if isEmpty h || (cursor h =? size h - 1) then
    (h, {| actions := []; address := None |})
  else
    let h' := {| entries := entries h; cursor := cursor h + 1 |} in
    (h', {| actions := navDelta h h'; address := entryAt h' (cursor h') |}).

(** Modelled from the spec: the missing getter [currentCommands], which
    is [currentActions] of section 4.1: the full enable/disable state of
    both directions. *)
Definition currentActions (h : t) : list NavEditCommands :=
  [ if canGoBack h then ENABLE_BACK else DISABLE_BACK;
    if canGoForward h then ENABLE_FORWARD else DISABLE_FORWARD ].

(** The calls a client can make, and a run of a sequence of them. *)
Inductive Call : Type :=
| CallRecord (address : string)
| CallGoBack
| CallGoForward.

Definition step (c : Call) (h : t) : t :=
  match c with
  | CallRecord a => fst (recordNavigation a h)
  | CallGoBack => fst (goBack h)
  | CallGoForward => fst (goForward h)
  end.

Definition run (cs : list Call) (h : t) : t :=
  fold_left (fun acc c => step c acc) cs h.

(** The invariant of section 3. *)
Definition inRange (h : t) : Prop :=
  entries h <> [] -> 0 <= cursor h < size h.

End HistoryStack.

(** Modelled from the spec: the missing class [PageHistory] is taken to
    behave as the HistoryStack of the specification; its [addHistory]
    always returns a response. *)
#[export] Instance HistoryStack_PageHistory : PageHistory HistoryStack.t := {
  newPageHistory := HistoryStack.empty;
  addHistory := fun a h =>
    let (h', r) := HistoryStack.recordNavigation a h in (h', Some r);
  goForward := HistoryStack.goForward;
  goBackward := HistoryStack.goBack;
  currentCommands := HistoryStack.currentActions
}.

(** ** Values exchanged between the contexts *)

(** A JavaScript value as far as the messages need it. [JUndefined] is a
    missing property; [JText v] is the string [JSON.stringify(v)], kept as
    the value it encodes. *)
Inductive JVal : Type :=
| JUndefined
| JStr (s : string)
| JBool (b : bool)
| JObj (fields : list (string * JVal))
| JText (v : JVal).

(** Property access [v.k] on a value that is not [undefined]. *)
Definition jget (k : string) (v : JVal) : JVal :=
  match v with
  | JObj fields =>
      match find (fun kv => String.eqb (fst kv) k) fields with
      | Some kv => snd kv
      | None => JUndefined
      end
  | _ => JUndefined
  end.

(** [JSON.parse(x)] of a text kept as [JText]; [None] when it throws.
    A text kept in another form is taken not to parse. *)
Definition JSON_parse (x : JVal) : option JVal :=
  match x with
  | JText v => Some v
  | _ => None
  end.

(** A message [{command, text}] posted between the controller and the
    display surface. *)
Record Message : Type := mkMessage {
  command : string;
  text : JVal
}.

(** [vscode.Uri] as far as the controller reads it: [scheme],
    [authority] and the result of [toString()]. *)
Record Uri : Type := mkUri {
  scheme : string;
  authority : string;
  toString : string
}.

(** What the connection manager's two promises settle to; [None] is a
    rejected promise. *)
Record HostResolution : Type := mkHostResolution {
  resolveExternalHTTPUri : option Uri;
  resolveExternalWSUri : option Uri
}.

(** The parts [getHtmlForWebview] interpolates into the page: the
    [src] of the [hostedContent] iframe, the [connect-src] and the
    [frame-src] of the content security policy. *)
Record Html : Type := mkHtml {
  httpURL : string;
  wsServerAddr : string;
  httpServerAddr : string
}.

(** The payload of the [onPanelTitleChange] event. *)
Record TitleChange : Type := mkTitleChange {
  title : string;
  pathname : string
}.

(** How an [async] method call ends. *)
Inductive Outcome : Type :=
| Fulfilled
| Rejected.

(** ** The controller: class [WebviewComm] *)

Module WebviewComm.

(** The state of one controller: its fields [_pageHistory] and
    [currentAddress], the effects it has had on its collaborators
    ([_panel.webview.html], the messages posted to the webview and the
    events fired, oldest first), and the [setHtml] calls that are
    suspended at their first [await]. *)
Record t (H : Type) : Type := mk {
  _pageHistory : H;
  currentAddress : string;
  html : option Html;
  posted : list Message;
  fired : list TitleChange;
  suspended : list (string * bool)
}.

Arguments mk {H}.
Arguments _pageHistory {H}.
Arguments currentAddress {H}.
Arguments html {H}.
Arguments posted {H}.
Arguments fired {H}.
Arguments suspended {H}.

Section Controller.

Context {H : Type} `{PageHistory H}.

(** [PathUtil.ConvertToUnixPath] and [isFileInjectable] are defined in
    [utils/pathUtil] and [utils/utils]; the controller is embedded for
    any such pair of functions. *)
Variable ConvertToUnixPath : string -> string.
Variable isFileInjectable : string -> bool.

Definition set_pageHistory (h : H) (w : t H) : t H :=
  mk h (currentAddress w) (html w) (posted w) (fired w) (suspended w).

Definition set_currentAddress (a : string) (w : t H) : t H :=
  mk (_pageHistory w) a (html w) (posted w) (fired w) (suspended w).

Definition set_html (x : Html) (w : t H) : t H :=
  mk (_pageHistory w) (currentAddress w) (Some x) (posted w) (fired w)
     (suspended w).

(** [this._panel.webview.postMessage(m)]. *)
Definition postMessage (m : Message) (w : t H) : t H :=
  mk (_pageHistory w) (currentAddress w) (html w) (posted w ++ [m])
     (fired w) (suspended w).

(** [this._onPanelTitleChange.fire(e)]. *)
Definition fire (e : TitleChange) (w : t H) : t H :=
  mk (_pageHistory w) (currentAddress w) (html w) (posted w)
     (fired w ++ [e]) (suspended w).

Definition suspend (call : string * bool) (w : t H) : t H :=
  mk (_pageHistory w) (currentAddress w) (html w) (posted w) (fired w)
     (suspended w ++ [call]).

Definition clear_suspended (w : t H) : t H :=
  mk (_pageHistory w) (currentAddress w) (html w) (posted w) (fired w)
     [].

Definition resolveHost (r : HostResolution) : option Uri :=
  resolveExternalHTTPUri r.

Definition resolveWsHost (r : HostResolution) : option Uri :=
  resolveExternalWSUri r.

(** [constructAddress(URLExt, hostURI?)]; [None] when the promise is
    rejected, which only happens when the host has to be resolved. *)
Definition constructAddress (r : HostResolution) (URLExt : string)
    (hostURI : option Uri) : option string :=
  let URLExt1 :=
    if (0 <? String.length URLExt)%nat
       && JsString.charAt0_is "/" URLExt
    then JsString.substring_from 1 URLExt
    else URLExt in
  let URLExt2 := ConvertToUnixPath URLExt1 in
  let URLExt3 :=
    if JsString.startsWith "/" URLExt2
    then JsString.substring_from 1 URLExt2
    else URLExt2 in
  match (match hostURI with
         | Some h => Some h
         | None => resolveHost r
         end) with
  | Some h => Some (toString h ++ URLExt3)%string
  | None => None
  end.

Definition getHtmlForWebview (httpURL wsServerAddr httpServerAddr : string)
    : Html :=
  mkHtml httpURL wsServerAddr httpServerAddr.

(** The message [handleNavAction] builds for a command. *)
Definition navActionText (command : NavEditCommands) : JVal :=
  match command with
  | DISABLE_BACK => JObj [("element", JStr "back"); ("disabled", JBool true)]
  | ENABLE_BACK => JObj [("element", JStr "back"); ("disabled", JBool false)]
  | DISABLE_FORWARD =>
      JObj [("element", JStr "forward"); ("disabled", JBool true)]
  | ENABLE_FORWARD =>
      JObj [("element", JStr "forward"); ("disabled", JBool false)]
  end.

Definition navActionMessage (command : NavEditCommands) : Message :=
  {| command := "changed-history"; text := JText (navActionText command) |}.

(** [handleNavAction(command)]. *)
Definition handleNavAction (command : NavEditCommands) (w : t H) : t H :=
  postMessage (navActionMessage command) w.

(** [for (const i in xs) this.handleNavAction(xs[i])]. *)
Definition relay (xs : list NavEditCommands) (w : t H) : t H :=
  fold_left (fun acc a => handleNavAction a acc) xs w.

(** The pathname [handleNewPageLoad] works with after its first
    statement ("only load relative addresses"). *)
Definition relativePathname (pathname : string) : string :=
  if (0 <? String.length pathname)%nat
     && negb (JsString.charAt0_is "/" pathname)
  then ("/" ++ pathname)%string
  else pathname.

(** [handleNewPageLoad(pathname, panelTitle = '')]. *)
Definition handleNewPageLoad (pathname panelTitle : string) (w : t H)
    : t H :=
  let pathname := relativePathname pathname in
  let w := fire {| title := panelTitle; pathname := pathname |} w in
  let w := set_currentAddress pathname w in
  let (h, response) := addHistory pathname (_pageHistory w) in
  let w := set_pageHistory h w in
  match response with
  | Some response => relay (actions response) w
  | None => w
  end.

(** [updateForwardBackArrows()]. *)
Definition updateForwardBackArrows (w : t H) : t H :=
  let navigationStatus := currentCommands (_pageHistory w) in
  relay navigationStatus w.

Definition setUrlMessage (fullPath pathname : string) : Message :=
  {| command := "set-url";
     text := JText (JObj [("fullPath", JStr fullPath);
                          ("pathname", JStr pathname)]) |}.

(** The body of [setHtml(webview, URLExt, updateHistory)], run once the
    host promises have settled to [r]. *)
Definition setHtml (r : HostResolution) (URLExt : string)
    (updateHistory : bool) (w : t H) : Outcome * t H :=
  match resolveHost r with
  | None => (Rejected, w)
  | Some httpHost =>
      match constructAddress r URLExt (Some httpHost) with
      | None => (Rejected, w)
      | Some url =>
          match resolveWsHost r with
          | None => (Rejected, w)
          | Some wsURI =>
              let w :=
                set_html
                  (getHtmlForWebview url
                     ("ws://" ++ authority wsURI)%string
                     (scheme httpHost ++ "://" ++ authority httpHost)%string)
                  w in
              let w :=
                if negb (isFileInjectable URLExt) then
                  postMessage (setUrlMessage url URLExt)
                    (fire {| title := ""; pathname := URLExt |} w)
                else w in
              let w :=
                if updateHistory then handleNewPageLoad URLExt "" w
                else w in
              (Fulfilled, w)
          end
      end
  end.

(** [goToFile(URLExt, updateHistory = true)]: [setHtml] is called but
    not awaited, so it stops at its first [await] and the assignment
    to [currentAddress] comes first. *)
Definition goToFile (URLExt : string) (updateHistory : bool) (w : t H)
    : t H :=
  set_currentAddress URLExt (suspend (URLExt, updateHistory) w).

(** The suspended [setHtml] calls are resumed, oldest first, the host
    promises having settled to [r]; a rejection is not handled by
    anyone and leaves the state as it was. *)
Definition settle (r : HostResolution) (w : t H) : t H :=
  fold_left (fun acc call => snd (setHtml r (fst call) (snd call) acc))
            (suspended w) (clear_suspended w).

(** [setUrlBar(pathname)]. *)
Definition setUrlBar (r : HostResolution) (pathname : string) (w : t H)
    : Outcome * t H :=
  match constructAddress r pathname None with
  | None => (Rejected, w)
  | Some fullPath =>
      let w := postMessage (setUrlMessage fullPath pathname) w in
      (Fulfilled, handleNewPageLoad pathname "" w)
  end.

(** [goForwards()]. *)
Definition goForwards (w : t H) : t H :=
  let (h, response) := goForward (_pageHistory w) in
  let w := set_pageHistory h w in
  let pagename := address response in
  let w :=
    match pagename with
    | Some pagename => goToFile pagename false w
    | None => w
    end in
  relay (actions response) w.

(** [goBack()]. *)
Definition goBack (w : t H) : t H :=
  let (h, response) := goBackward (_pageHistory w) in
  let w := set_pageHistory h w in
  let pagename := address response in
  let w :=
    match pagename with
    | Some pagename => goToFile pagename false w
    | None => w
    end in
  relay (actions response) w.

(** [new WebviewComm(initialFile, ...)]: the synchronous part of the
    constructor; the response of its [addHistory] call is dropped. *)
Definition constructor (initialFile : string) : t H :=
  let w := mk newPageHistory "" None [] [] [] in
  let w := updateForwardBackArrows w in
  let w := goToFile initialFile false w in
  let w := set_pageHistory
             (fst (addHistory initialFile (_pageHistory w))) w in
  set_currentAddress initialFile w.

End Controller.

End WebviewComm.

(** ** The display surface: [media/main.js] *)

Module DisplaySurface.

(** What the script reads and writes: the [disabled] property of the
    two buttons, the value assigned to [url-input], the state kept with
    [vscode.setState], and what it has sent, oldest first, to the
    controller ([vscode.postMessage]), over the socket
    ([connection.send]) and into the frame
    ([contentWindow.postMessage]). *)
Record t : Type := mk {
  back_disabled : bool;
  forward_disabled : bool;
  url_input : JVal;
  state_currentAddress : JVal;
  toController : list Message;
  toSocket : list JVal;
  toFrame : list string
}.

Definition set_back_disabled (b : bool) (d : t) : t :=
  mk b (forward_disabled d) (url_input d) (state_currentAddress d)
     (toController d) (toSocket d) (toFrame d).

Definition set_forward_disabled (b : bool) (d : t) : t :=
  mk (back_disabled d) b (url_input d) (state_currentAddress d)
     (toController d) (toSocket d) (toFrame d).

Definition set_url_input (v : JVal) (d : t) : t :=
  mk (back_disabled d) (forward_disabled d) v (state_currentAddress d)
     (toController d) (toSocket d) (toFrame d).

(** [vscode.setState({ currentAddress: v })]. *)
Definition setState (v : JVal) (d : t) : t :=
  mk (back_disabled d) (forward_disabled d) (url_input d) v
     (toController d) (toSocket d) (toFrame d).

(** [vscode.postMessage(m)]. *)
Definition postMessage (m : Message) (d : t) : t :=
  mk (back_disabled d) (forward_disabled d) (url_input d)
     (state_currentAddress d) (toController d ++ [m]) (toSocket d)
     (toFrame d).

(** [connection.send(x)]. *)
Definition send (x : JVal) (d : t) : t :=
  mk (back_disabled d) (forward_disabled d) (url_input d)
     (state_currentAddress d) (toController d) (toSocket d ++ [x])
     (toFrame d).

(** [hostedContent.contentWindow.postMessage(x, '*')]. *)
Definition framePost (x : string) (d : t) : t :=
  mk (back_disabled d) (forward_disabled d) (url_input d)
     (state_currentAddress d) (toController d) (toSocket d)
     (toFrame d ++ [x]).

(** The page as the script leaves it when it has run: the buttons of the
    markup carry no [disabled] attribute. *)
Definition init (locationPathname : string) : t :=
  framePost "setup-parent-listener"
    (mk false false (JStr "") (JStr locationPathname) [] [] []).

(** The text sent over the socket for a url check. *)
Definition urlCheck (url : JVal) : JVal :=
  JText (JObj [("command", JStr "urlCheck"); ("url", url)]).

(** The listener of [window] for ['message'] events; [message] is
    [event.data]. A [switch] without a default: other commands fall
    through. *)
Definition onWindowMessage (message : Message) (d : t) : t :=
  if command message =? "refresh" then framePost "refresh" d
  else if command message =? "enable-back" then set_back_disabled false d
  else if command message =? "disable-back" then set_back_disabled true d
  else if command message =? "enable-forward" then
    set_forward_disabled false d
  else if command message =? "disable-forward" then
    set_forward_disabled true d
  else if command message =? "update-path" then
    match JSON_parse (text message) with
    | None => d
    | Some msgJSON =>
        let d := postMessage {| command := "update-path";
                                text := text message |} d in
        match jget "fullPath" msgJSON with
        | JUndefined => d
        | fullPath =>
            setState (jget "pathname" msgJSON)
              (set_url_input (jget "href" fullPath) d)
        end
    end
  else if command message =? "set-url" then
    match JSON_parse (text message) with
    | None => d
    | Some msgJSON =>
        setState (jget "pathname" msgJSON)
          (set_url_input (jget "fullPath" msgJSON) d)
    end
  else if command message =? "open-external-link" then
    postMessage {| command := "open-browser"; text := text message |} d
  else if command message =? "perform-url-check" then
    send (urlCheck (text message)) d
  else d.

(** [connection.onmessage]; [data] is [e.data]. *)
Definition onSocketMessage (data : JVal) (d : t) : t :=
  match JSON_parse data with
  | None => d
  | Some parsedMessage =>
      match jget "command" parsedMessage with
      | JStr c =>
          if c =? "foundNonInjectable" then
            postMessage {| command := "add-history";
                           text := jget "path" parsedMessage |} d
          else d
      | _ => d
      end
  end.

(** What can happen to the display surface. *)
Inductive Event : Type :=
| DOMContentLoaded
| ClickBack
| ClickForward
| ClickReload
| ClickBrowserOpen
| UrlInputKeyup (keyCode : Z) (value : string)
| WindowMessage (message : Message)
| SocketMessage (data : JVal).

Definition handle (e : Event) (d : t) : t :=
  match e with
  | DOMContentLoaded =>
      postMessage {| command := "refresh-back-forward-buttons";
                     text := JUndefined |} d
  | ClickBack => postMessage {| command := "go-back"; text := JUndefined |} d
  | ClickForward =>
      postMessage {| command := "go-forward"; text := JUndefined |} d
  | ClickReload => framePost "refresh" d
  | ClickBrowserOpen =>
      postMessage {| command := "open-browser"; text := JStr "" |} d
  | UrlInputKeyup keyCode value =>
      if (keyCode =? 13)%Z then
        postMessage {| command := "go-to-file"; text := JStr value |} d
      else d
  | WindowMessage message => onWindowMessage message d
  | SocketMessage data => onSocketMessage data d
  end.

Definition handleAll (es : list Event) (d : t) : t :=
  fold_left (fun acc e => handle e acc) es d.

(** Whether a socket text is the url check for [url]. *)
Definition isUrlCheckFor (url : string) (x : JVal) : bool :=
  match x with
  | JText (JObj [(k1, JStr c); (k2, JStr u)]) =>
      (k1 =? "command") && (c =? "urlCheck") && (k2 =? "url") && (u =? url)
  | _ => false
  end.

(** The number of url checks for [url] among socket texts. *)
Definition urlChecksFor (url : string) (xs : list JVal) : nat :=
  List.length (filter (isUrlCheckFor url) xs).

(** A request to the display surface to check [url]. *)
Definition performUrlCheck (url : string) : Event :=
  WindowMessage {| command := "perform-url-check"; text := JStr url |}.

Definition isPerformUrlCheckFor (url : string) (e : Event) : bool :=
  match e with
  | WindowMessage m =>
      (command m =? "perform-url-check") &&
      match text m with
      | JStr u => String.eqb u url
      | _ => false
      end
  | _ => false
  end.

End DisplaySurface.

(** ** Notions the statements below use *)

(** The string begins with a separator. *)
Definition beginsWithSlash (s : string) : bool := JsString.charAt0_is "/" s.

(** The string begins with exactly one separator: its first character is
    ['/'] and its second one, if any, is not. *)
Definition beginsWithOneSlash (s : string) : bool :=
  match s with
  | String c rest => Ascii.eqb c "/" && negb (JsString.charAt0_is "/" rest)
  | EmptyString => false
  end.

(** The string with one leading separator removed, if it has one. *)
Definition dropLeadingSlash (s : string) : string :=
  match s with
  | String c rest => if Ascii.eqb c "/" then rest else s
  | EmptyString => s
  end.

(** The address as the description of [constructAddress] words it: the
    host string followed by the pathname, one leading separator removed
    before the conversion to a unix path and one more after it. *)
Definition hostThenPath (ConvertToUnixPath : string -> string) (host : Uri)
    (URLExt : string) : string :=
  (toString host
     ++ dropLeadingSlash (ConvertToUnixPath (dropLeadingSlash URLExt)))%string.

(** A message that changes the history buttons. *)
Definition isChangedHistory (m : Message) : bool :=
  command m =? "changed-history".

(** Sample collaborators for concrete runs: a host that resolves, one
    that does not, a path conversion that turns every backslash into a
    slash, and an injectability test by the [.html] suffix. *)
Definition sampleHost : HostResolution :=
  {| resolveExternalHTTPUri :=
       Some (mkUri "http" "127.0.0.1:3000" "http://127.0.0.1:3000/");
     resolveExternalWSUri :=
       Some (mkUri "ws" "127.0.0.1:3001" "ws://127.0.0.1:3001/") |}.

Definition noHost : HostResolution :=
  {| resolveExternalHTTPUri := None; resolveExternalWSUri := None |}.

Fixpoint backslashesToSlashes (s : string) : string :=
  match s with
  | EmptyString => EmptyString
  | String c rest =>
      String (if Ascii.eqb c (ascii_of_nat 92) then "/"%char else c)
             (backslashesToSlashes rest)
  end.

Definition endsWithHtml (s : string) : bool :=
  let n := String.length s in
  String.substring (n - 5) 5 s =? ".html".

(** ** Sequences of calls on a controller *)

Module WebviewCommCalls.

Import WebviewComm.

(** The public methods of [WebviewComm] a client can call on a panel, and
    the resumption of the suspended [setHtml] calls once the host
    promises have settled. *)
Inductive Call : Type :=
| CallGoToFile (URLExt : string) (updateHistory : bool)
| CallSetHtml (r : HostResolution) (URLExt : string) (updateHistory : bool)
| CallSetUrlBar (r : HostResolution) (pathname : string)
| CallHandleNavAction (command : NavEditCommands)
| CallHandleNewPageLoad (pathname panelTitle : string)
| CallUpdateForwardBackArrows
| CallGoForwards
| CallGoBack
| Resume (r : HostResolution).

Section Calls.

Context {H : Type} `{PageHistory H}.
Variable ConvertToUnixPath : string -> string.
Variable isFileInjectable : string -> bool.

Definition call (c : Call) (w : t H) : t H :=
  match c with
  | CallGoToFile URLExt updateHistory => goToFile URLExt updateHistory w
  | CallSetHtml r URLExt updateHistory =>
      snd (setHtml ConvertToUnixPath isFileInjectable r URLExt updateHistory w)
  | CallSetUrlBar r pathname => snd (setUrlBar ConvertToUnixPath r pathname w)
  | CallHandleNavAction command => handleNavAction command w
  | CallHandleNewPageLoad pathname panelTitle =>
      handleNewPageLoad pathname panelTitle w
  | CallUpdateForwardBackArrows => updateForwardBackArrows w
  | CallGoForwards => goForwards w
  | CallGoBack => goBack w
  | Resume r => settle ConvertToUnixPath isFileInjectable r w
  end.

Definition calls (cs : list Call) (w : t H) : t H :=
  fold_left (fun acc c => call c acc) cs w.

End Calls.

End WebviewCommCalls.

(** The button messages [handleNewPageLoad] relays for a pathname: one
    per action of the response of [addHistory], none when there is no
    response. *)
Definition relayed {H : Type} `{PageHistory H} (pathname : string)
    (w : WebviewComm.t H) : list Message :=
  match snd (addHistory (WebviewComm.relativePathname pathname)
               (WebviewComm._pageHistory w)) with
  | Some response => map WebviewComm.navActionMessage (actions response)
  | None => []
  end.

(** Whether both host promises are fulfilled. *)
Definition resolved (r : HostResolution) : bool :=
  match WebviewComm.resolveHost r, WebviewComm.resolveWsHost r with
  | Some _, Some _ => true
  | _, _ => false
  end.

(** The [set-url] message of a navigation to [URLExt]: none when a host
    promise is rejected or the file is injectable. *)
Definition urlMessages (conv : string -> string) (inj : string -> bool)
    (r : HostResolution) (URLExt : string) : list Message :=
  match WebviewComm.resolveHost r, WebviewComm.resolveWsHost r with
  | Some h, Some _ =>
      if inj URLExt then []
      else [WebviewComm.setUrlMessage (hostThenPath conv h URLExt) URLExt]
  | _, _ => []
  end.

(** The two commands of the messages [webviewComm.ts] posts. *)
Definition isControllerCommand (m : Message) : bool :=
  (command m =? "set-url") || (command m =? "changed-history").

(** [w'] has posted what [w] has and then only [set-url] and
    [changed-history] messages. *)
Definition extends {H : Type} (w w' : WebviewComm.t H) : Prop :=
  exists ms, WebviewComm.posted w' = WebviewComm.posted w ++ ms
             /\ forallb isControllerCommand ms = true.

(** The commands of the messages [main.js] posts to the controller. *)
Definition displayCommands : list string :=
  ["add-history"; "refresh-back-forward-buttons"; "go-back"; "go-forward";
   "open-browser"; "go-to-file"; "update-path"].

Definition isDisplayCommand (m : Message) : bool :=
  existsb (String.eqb (command m)) displayCommands.

(** The four commands for which the window listener of [main.js] writes a
    button's [disabled] property. *)
Definition isButtonCommand (m : Message) : bool :=
  existsb (String.eqb (command m))
    ["enable-back"; "disable-back"; "enable-forward"; "disable-forward"].

(** The events that make the display surface post ['refresh'] into the
    frame: a click on the reload button and a [refresh] message. *)
Definition isRefreshEvent (e : DisplaySurface.Event) : bool :=
  match e with
  | DisplaySurface.ClickReload => true
  | DisplaySurface.WindowMessage m => command m =? "refresh"
  | _ => false
  end.

(** ** The commands of the extension: [src/extension.ts] *)

Module Extension.

Section Activate.

(** The values the handlers only pass on: a file argument
    ([vscode.Uri | string]), [vscode.WorkspaceFolder] and
    [ServerManager]; [fsPath f] is the property [f.fsPath], [None] when
    it is [undefined]. *)
Variables File WorkspaceFolder ServerManager : Type.
Variable fsPath : File -> option string.

(** The constant [SETTINGS_SECTION_ID] of [utils/settingsUtil]. *)
Variable SETTINGS_SECTION_ID : string.

(** The interface [openFileOptions]; [None] is a field left out. *)
Record openFileOptions : Type := mkOpenFileOptions {
  relativeFileString : option bool;
  workspace : option WorkspaceFolder;
  port : option Z;
  manager : option ServerManager
}.

(** What the handlers read from the settings:
    [SettingUtil.GetConfig().defaultPreviewPath] and
    [SettingUtil.GetPreviewType()]. *)
Record Settings : Type := mkSettings {
  defaultPreviewPath : string;
  GetPreviewType : string
}.

(** The calls a handler makes on its collaborators. *)
Inductive Call : Type :=
| sendTelemetryEvent (eventName : string) (properties : list (string * string))
| openTargetAtFile (filePath : string)
| handleOpenFile (internal : bool) (file : option File) (isRelative : bool)
    (debug : bool) (workspace : option WorkspaceFolder) (port : option Z)
    (manager : option ServerManager)
| executeCommand (command : string) (file : option File)
    (options : option openFileOptions)
| closeServers
| UpdateSettings (setting : string) (value : option string) (isGlobal : bool).

(** [options?.relativeFileString ?? false]. *)
Definition relativeFileStringOr (options : option openFileOptions) : bool :=
  match options with
  | Some o =>
      match relativeFileString o with
      | Some b => b
      | None => false
      end
  | None => false
  end.

(** [options?.workspace], [options?.port], [options?.manager]. *)
Definition workspaceOf (options : option openFileOptions)
    : option WorkspaceFolder :=
  match options with Some o => workspace o | None => None end.

Definition portOf (options : option openFileOptions) : option Z :=
  match options with Some o => port o | None => None end.

Definition managerOf (options : option openFileOptions)
    : option ServerManager :=
  match options with Some o => manager o | None => None end.

Definition Handler : Type :=
  option File -> option openFileOptions -> list Call.

(** The commands [activate] registers, in the order of registration,
    each with what its handler does when called with [(file, options)]. *)
Definition registered (settings : Settings) : list (string * Handler) :=
  [ ((SETTINGS_SECTION_ID ++ ".start")%string,
     fun _ _ => [openTargetAtFile (defaultPreviewPath settings)]);
    ((SETTINGS_SECTION_ID ++ ".start.preview.atFile")%string,
     fun file options =>
       [executeCommand
          (SETTINGS_SECTION_ID ++ ".start." ++ GetPreviewType settings
             ++ ".atFile")%string
          file options]);
    ((SETTINGS_SECTION_ID ++ ".start.debugPreview.atFile")%string,
     fun file options =>
       [executeCommand
          (SETTINGS_SECTION_ID ++ ".start.externalDebugPreview.atFile")%string
          file options]);
    ((SETTINGS_SECTION_ID ++ ".start.externalPreview.atFile")%string,
     fun file options =>
       [sendTelemetryEvent "preview"
          [("type", "external"); ("location", "atFile"); ("debug", "false")];
        handleOpenFile false file (relativeFileStringOr options) false
          (workspaceOf options) (portOf options) (managerOf options)]);
    ((SETTINGS_SECTION_ID ++ ".start.internalPreview.atFile")%string,
     fun file options =>
       [sendTelemetryEvent "preview"
          [("type", "internal"); ("location", "atFile")];
        handleOpenFile true file (relativeFileStringOr options) false
          (workspaceOf options) (portOf options) (managerOf options)]);
    ((SETTINGS_SECTION_ID ++ ".start.externalDebugPreview.atFile")%string,
     fun file options =>
       [sendTelemetryEvent "preview"
          [("type", "external"); ("location", "atFile"); ("debug", "true")];
        handleOpenFile false file (relativeFileStringOr options) true
          (workspaceOf options) (portOf options) (managerOf options)]);
    ((SETTINGS_SECTION_ID ++ ".end")%string,
     fun _ _ => [closeServers; sendTelemetryEvent "server.forceClose" []]);
    ((SETTINGS_SECTION_ID ++ ".setDefaultOpenFile")%string,
     fun file _ =>
       match file with
       | Some f => [UpdateSettings "defaultPreviewPath" (fsPath f) false]
       | None => []
       end) ].

(** [vscode.commands.executeCommand(command, file, options)] among the
    commands of the extension: the handler registered under the name is
    run, and the commands it executes in turn are run the same way, at
    most [fuel] deep; a name that is not registered runs nothing. *)
Fixpoint dispatch (fuel : nat) (settings : Settings) (command : string)
    (file : option File) (options : option openFileOptions) : list Call :=
  match fuel with
  | O => []
  | S fuel =>
      match find (fun kv => String.eqb (fst kv) command)
                 (registered settings) with
      | Some kv =>
          flat_map
            (fun c =>
               match c with
               | executeCommand command' file' options' =>
                   dispatch fuel settings command' file' options'
               | _ => [c]
               end)
            (snd kv file options)
      | None => []
      end
  end.

(** The properties of the [preview] telemetry event that goes with a
    call of [handleOpenFile]. *)
Definition previewProperties (internal debug : bool)
    : list (string * string) :=
  if internal then [("type", "internal"); ("location", "atFile")]
  else [("type", "external"); ("location", "atFile");
        ("debug", if debug then "true" else "false")].

End Activate.

Arguments sendTelemetryEvent {File WorkspaceFolder ServerManager}.
Arguments openTargetAtFile {File WorkspaceFolder ServerManager}.
Arguments handleOpenFile {File WorkspaceFolder ServerManager}.
Arguments executeCommand {File WorkspaceFolder ServerManager}.
Arguments closeServers {File WorkspaceFolder ServerManager}.
Arguments UpdateSettings {File WorkspaceFolder ServerManager}.
Arguments relativeFileStringOr {WorkspaceFolder ServerManager}.
Arguments workspaceOf {WorkspaceFolder ServerManager}.
Arguments portOf {WorkspaceFolder ServerManager}.
Arguments managerOf {WorkspaceFolder ServerManager}.
Arguments registered {File WorkspaceFolder ServerManager}.
Arguments dispatch {File WorkspaceFolder ServerManager}.

End Extension.

(** * Properties *)

(** ** JavaScript strings *)

Module JsStringFacts.

Import JsString.

Lemma substring_all (s : string) :
  String.substring 0 (String.length s) s = s.
Proof.
  induction s as [|c s IH]; simpl; [reflexivity | now rewrite IH].
Qed.

Lemma substring_from_1_cons (c : ascii) (s : string) :
  substring_from 1 (String c s) = s.
Proof.
  unfold substring_from; simpl.
  rewrite Nat.sub_0_r. apply substring_all.
Qed.

Lemma charAt0_is_cons (c d : ascii) (s : string) :
  charAt0_is c (String d s) = Ascii.eqb d c.
Proof. reflexivity. Qed.

Lemma startsWith_slash (s : string) :
  startsWith "/" s = charAt0_is "/" s.
Proof.
  destruct s as [|d t]; [reflexivity|].
  unfold startsWith. rewrite charAt0_is_cons.
  change (String.prefix "/" (String d t))
    with (if ascii_dec "/" d then String.prefix "" t else false).
  destruct (ascii_dec "/" d) as [<-|N].
  - destruct t; reflexivity.
  - symmetry. apply Ascii.eqb_neq. congruence.
Qed.


End JsStringFacts.

(** ** The history stack *)

Module HistoryStackFacts.

Import HistoryStack.
Local Open Scope Z_scope.

(** The scenarios of section 8 of the specification. *)
Example scenario_first_navigation :
  recordNavigation "/index.html" empty
  = (mk ["/index.html"] 0, mkNavResponse [] None).
Proof. reflexivity. Qed.

Example scenario_second_navigation :
  recordNavigation "/about.html" (mk ["/index.html"] 0)
  = (mk ["/index.html"; "/about.html"] 1, mkNavResponse [ENABLE_BACK] None).
Proof. reflexivity. Qed.

Example scenario_goBack :
  goBack (mk ["/index.html"; "/about.html"] 1)
  = (mk ["/index.html"; "/about.html"] 0,
     mkNavResponse [ENABLE_FORWARD; DISABLE_BACK] (Some "/index.html")).
Proof. reflexivity. Qed.

Example scenario_discard_forward_entries :
  fst (recordNavigation "D" (mk ["A"; "B"; "C"] 0)) = mk ["A"; "D"] 1.
Proof. reflexivity. Qed.

Example scenario_boundaries :
  goBack (mk ["A"; "B"] 0) = (mk ["A"; "B"] 0, mkNavResponse [] None)
  /\ goForward (mk ["A"; "B"] 1) = (mk ["A"; "B"] 1, mkNavResponse [] None).
Proof. split; reflexivity. Qed.

Lemma isEmpty_false (h : t) : isEmpty h = false <-> entries h <> [].
Proof.
  unfold isEmpty. destruct (entries h); split; congruence.
Qed.

Lemma recordNavigation_entries (a : string) (h : t) :
  entries (fst (recordNavigation a h))
  = firstn (Z.to_nat (cursor h + 1)) (entries h) ++ [a].
Proof. reflexivity. Qed.

Lemma recordNavigation_nonempty (a : string) (h : t) :
  entries (fst (recordNavigation a h)) <> [].
Proof.
  rewrite recordNavigation_entries.
  destruct (firstn _ _); discriminate.
Qed.

Lemma recordNavigation_inRange (a : string) (h : t) :
  inRange (fst (recordNavigation a h)).
Proof.
  intros _. unfold size. simpl.
  rewrite length_app. simpl. lia.
Qed.

Lemma goBack_entries (h : t) : entries (fst (goBack h)) = entries h.
Proof.
  unfold goBack. destruct (isEmpty h || (cursor h =? 0)); reflexivity.
Qed.

Lemma goForward_entries (h : t) : entries (fst (goForward h)) = entries h.
Proof.
  unfold goForward. destruct (isEmpty h || (cursor h =? size h - 1));
    reflexivity.
Qed.

Lemma goBack_moves (h : t) :
  entries h <> [] -> cursor h <> 0 ->
  goBack h
  = (let h' := mk (entries h) (cursor h - 1) in
     (h', mkNavResponse (navDelta h h') (entryAt h' (cursor h')))).
Proof.
  intros Hne Hc. unfold goBack.
  apply isEmpty_false in Hne. apply Z.eqb_neq in Hc.
  now rewrite Hne, Hc.
Qed.

Lemma goForward_moves (h : t) :
  entries h <> [] -> cursor h <> size h - 1 ->
  goForward h
  = (let h' := mk (entries h) (cursor h + 1) in
     (h', mkNavResponse (navDelta h h') (entryAt h' (cursor h')))).
Proof.
  intros Hne Hc. unfold goForward.
  apply isEmpty_false in Hne. apply Z.eqb_neq in Hc.
  now rewrite Hne, Hc.
Qed.

Lemma goBack_inRange (h : t) : inRange h -> inRange (fst (goBack h)).
Proof.
  unfold goBack.
  destruct (isEmpty h || (cursor h =? 0)) eqn:E; [trivial|].
  apply orb_false_iff in E. destruct E as [E0 Ec].
  apply isEmpty_false in E0. apply Z.eqb_neq in Ec.
  intros IH _. specialize (IH E0). unfold size in *. simpl. lia.
Qed.

Lemma goForward_inRange (h : t) : inRange h -> inRange (fst (goForward h)).
Proof.
  unfold goForward.
  destruct (isEmpty h || (cursor h =? size h - 1)) eqn:E; [trivial|].
  apply orb_false_iff in E. destruct E as [E0 Ec].
  apply isEmpty_false in E0. apply Z.eqb_neq in Ec.
  intros IH _. specialize (IH E0). unfold size in *. simpl. lia.
Qed.

Lemma step_inRange (c : Call) (h : t) : inRange h -> inRange (step c h).
Proof.
  destruct c; simpl.
  - intros _. apply recordNavigation_inRange.
  - apply goBack_inRange.
  - apply goForward_inRange.
Qed.

Lemma step_nonempty (c : Call) (h : t) :
  entries h <> [] -> entries (step c h) <> [].
Proof.
  destruct c; simpl; intros Hne.
  - apply recordNavigation_nonempty.
  - now rewrite goBack_entries.
  - now rewrite goForward_entries.
Qed.

Lemma run_inRange (cs : list Call) :
  forall h, inRange h -> inRange (run cs h).
Proof.
  induction cs as [|c cs IH]; intros h Hh; simpl; [exact Hh|].
  apply IH, step_inRange, Hh.
Qed.

Lemma run_nonempty (cs : list Call) :
  forall h, entries h <> [] -> entries (run cs h) <> [].
Proof.
  induction cs as [|c cs IH]; intros h Hh; simpl; [exact Hh|].
  apply IH, step_nonempty, Hh.
Qed.

Lemma empty_inRange : inRange empty.
Proof. intros Hne. now contradiction Hne. Qed.

Lemma nth_error_tail {A : Type} (xs : list A) (x : A) :
  nth_error (xs ++ [x]) (List.length xs) = Some x.
Proof.
  rewrite nth_error_app2 by apply Nat.le_refl.
  now rewrite Nat.sub_diag.
Qed.

(** [C8] Whatever sequence of [recordNavigation], [goBack] and
    [goForward] calls a history has received since it was created: if it
    holds an entry, then [0 <= cursor < entries.length]; if it holds an
    entry, it still holds one after any further calls; and it holds one
    after any further calls that begin with a navigation. *)
Theorem cursor_in_range_and_entries_stay (cs : list Call) :
  let h := run cs empty in
  (entries h <> [] -> 0 <= cursor h < Z.of_nat (List.length (entries h)))
  /\ (forall more, entries h <> [] -> entries (run more h) <> [])
  /\ (forall a more, entries (run (CallRecord a :: more) h) <> []).
Proof.
  cbv zeta. split; [|split].
  - apply (run_inRange cs empty empty_inRange).
  - intros more Hne. now apply run_nonempty.
  - intros a more. simpl. apply run_nonempty, recordNavigation_nonempty.
Qed.

Lemma cursor_in_range_and_entries_stay_witness :
  let h := run [CallRecord "/index.html"; CallRecord "/about.html";
                CallGoBack] empty in
  entries h <> []
  /\ 0 <= cursor h < Z.of_nat (List.length (entries h))
  /\ entries (run [CallGoBack; CallGoForward] h) <> [].
Proof.
  cbv zeta.
  assert (Hne : entries (run [CallRecord "/index.html";
                               CallRecord "/about.html"; CallGoBack] empty)
                <> []) by (vm_compute; discriminate).
  pose proof (cursor_in_range_and_entries_stay
                [CallRecord "/index.html"; CallRecord "/about.html";
                 CallGoBack]) as [Hr [Hs _]].
  split; [exact Hne|]. split.
  - exact (Hr Hne).
  - exact (Hs [CallGoBack; CallGoForward] Hne).
Defined.

(** [C7], counterexample: on a history without entries,
    [recordNavigation(X); goBack(); goForward()] leaves the cursor on
    [X], but [goForward()] returns no address. *)
Lemma roundtrip_fails_on_first_navigation :
  let h1 := fst (recordNavigation "/index.html" empty) in
  let h2 := fst (goBack h1) in
  entryAt (fst (goForward h2)) (cursor (fst (goForward h2)))
    = Some "/index.html"
  /\ address (snd (goForward h2)) = None
  /\ address (snd (goForward h2)) <> Some "/index.html".
Proof.
  cbv zeta. split; [reflexivity|]. split; [reflexivity|].
  vm_compute. discriminate.
Qed.

(** [C7], amended: on a history that holds an entry, with the cursor in
    range, [recordNavigation(X); goBack(); goForward()] brings the
    history back to what it was after the recording, with the cursor on
    the entry for [X], and [goForward()] returns [X]. *)
Theorem roundtrip_after_first_navigation (h : t) (X : string) :
  entries h <> [] ->
  0 <= cursor h < Z.of_nat (List.length (entries h)) ->
  let h1 := fst (recordNavigation X h) in
  let h2 := fst (goBack h1) in
  let h3 := fst (goForward h2) in
  address (snd (goForward h2)) = Some X
  /\ cursor h3 = cursor h1
  /\ entryAt h3 (cursor h3) = Some X
  /\ h3 = h1.
Proof.
  intros Hne Hc. destruct h as [es c]. simpl in Hne, Hc.
  set (es1 := firstn (Z.to_nat (c + 1)) es ++ [X]).
  assert (Hlen : Z.of_nat (List.length es1) = c + 2).
  { unfold es1. rewrite length_app, length_firstn. simpl. lia. }
  assert (Hnth : nth_error es1 (Z.to_nat (c + 1)) = Some X).
  { unfold es1.
    replace (Z.to_nat (c + 1)) with
      (List.length (firstn (Z.to_nat (c + 1)) es)) at 2
      by (rewrite length_firstn; lia).
    apply nth_error_tail. }
  assert (Hne1 : es1 <> []).
  { unfold es1. destruct (firstn _ es); discriminate. }
  assert (H1 : fst (recordNavigation X (mk es c)) = mk es1 (c + 1)).
  { unfold recordNavigation. simpl. fold es1. f_equal. lia. }
  cbv zeta. rewrite H1.
  rewrite (goBack_moves (mk es1 (c + 1))) by (simpl; first [exact Hne1 | lia]).
  simpl fst.
  rewrite (goForward_moves (mk es1 (c + 1 - 1)))
    by (unfold size; simpl; first [exact Hne1 | lia]).
  simpl. replace (c + 1 - 1 + 1) with (c + 1) by lia.
  unfold entryAt. simpl.
  destruct (c + 1 <? 0) eqn:E3; [apply Z.ltb_lt in E3; lia|].
  rewrite Hnth. repeat split; reflexivity.
Qed.

Lemma roundtrip_after_first_navigation_witness :
  let h := fst (recordNavigation "/index.html" empty) in
  let h1 := fst (recordNavigation "/about.html" h) in
  address (snd (goForward (fst (goBack h1)))) = Some "/about.html"
  /\ fst (goForward (fst (goBack h1))) = h1.
Proof.
  cbv zeta.
  destruct (roundtrip_after_first_navigation
              (fst (recordNavigation "/index.html" empty)) "/about.html")
    as [Ha [_ [_ Hh]]].
  - vm_compute. discriminate.
  - simpl. lia.
  - split; [exact Ha | exact Hh].
Defined.

End HistoryStackFacts.

(** ** The controller *)

Module WebviewCommFacts.

Import WebviewComm.

Section AnyHistory.

Context {H : Type} `{PageHistory H}.
Variable ConvertToUnixPath : string -> string.
Variable isFileInjectable : string -> bool.

Lemma relay_eq (xs : list NavEditCommands) :
  forall w : t H,
    relay xs w
    = mk (_pageHistory w) (currentAddress w) (html w)
         (posted w ++ map navActionMessage xs) (fired w) (suspended w).
Proof.
  unfold relay.
  induction xs as [|x xs IH]; intros [h a x0 p f s]; cbn [fold_left map].
  - cbn. now rewrite app_nil_r.
  - rewrite IH. cbn. now rewrite <- app_assoc.
Qed.

Lemma handleNewPageLoad_eq (pathname panelTitle : string) (w : t H) :
  let p := relativePathname pathname in
  let hr := addHistory p (_pageHistory w) in
  handleNewPageLoad pathname panelTitle w
  = mk (fst hr) p (html w)
       (posted w ++ match snd hr with
                    | Some response => map navActionMessage (actions response)
                    | None => []
                    end)
       (fired w ++ [{| title := panelTitle; pathname := p |}])
       (suspended w).
Proof.
  cbv zeta. unfold handleNewPageLoad. destruct w as [h a x0 p f s]. simpl.
  destruct (addHistory (relativePathname pathname) h) as [h' [response|]];
    simpl.
  - now rewrite relay_eq.
  - now rewrite app_nil_r.
Qed.

Lemma setHtml_rejected (r : HostResolution) (URLExt : string)
    (updateHistory : bool) (w : t H) :
  resolveHost r = None \/ resolveWsHost r = None ->
  setHtml ConvertToUnixPath isFileInjectable r URLExt updateHistory w
  = (Rejected, w).
Proof.
  intros [E|E]; unfold setHtml, constructAddress.
  - now rewrite E.
  - destruct (resolveHost r); [now rewrite E | reflexivity].
Qed.

Lemma settle_rejected (r : HostResolution) (w : t H) :
  resolveHost r = None \/ resolveWsHost r = None ->
  settle ConvertToUnixPath isFileInjectable r w = clear_suspended w.
Proof.
  intros E. unfold settle. generalize (clear_suspended w) as acc.
  induction (suspended w) as [|call calls IH]; intros acc; simpl.
  - reflexivity.
  - rewrite (setHtml_rejected r _ _ acc E). apply IH.
Qed.

Lemma setHtml_history (r : HostResolution) (URLExt : string) (w : t H)
    (httpHost wsURI : Uri) :
  resolveHost r = Some httpHost ->
  resolveWsHost r = Some wsURI ->
  fst (setHtml ConvertToUnixPath isFileInjectable r URLExt true w) = Fulfilled
  /\ _pageHistory
       (snd (setHtml ConvertToUnixPath isFileInjectable r URLExt true w))
     = fst (addHistory (relativePathname URLExt) (_pageHistory w)).
Proof.
  intros Eh Ew. unfold setHtml, constructAddress. rewrite Eh, Ew.
  split; [reflexivity|].
  cbn [snd]. rewrite handleNewPageLoad_eq. cbn [_pageHistory].
  destruct (isFileInjectable URLExt); reflexivity.
Qed.

Lemma app_one_neq {A : Type} (xs : list A) (x : A) : xs ++ [x] <> xs.
Proof.
  intros E. apply (f_equal (@List.length A)) in E.
  rewrite length_app in E. simpl in E. lia.
Qed.

(** [C4] When resolving the host fails, a navigation records nothing:
    the suspended [setHtml] is rejected without any effect, and once the
    call of [goToFile] has settled the history is what it was before. *)
Theorem failed_navigation_leaves_history (r : HostResolution)
    (URLExt : string) (updateHistory : bool) (w : t H) :
  resolveHost r = None \/ resolveWsHost r = None ->
  setHtml ConvertToUnixPath isFileInjectable r URLExt updateHistory w
  = (Rejected, w)
  /\ _pageHistory
       (settle ConvertToUnixPath isFileInjectable r
          (goToFile URLExt updateHistory w))
     = _pageHistory w.
Proof.
  intros E. split.
  - now apply setHtml_rejected.
  - now rewrite settle_rejected.
Qed.

(** [C6] [goBack] and [goForwards] start a navigation, with
    [updateHistory] false, exactly when the response of the history
    carries an address, and in either case post one [changed-history]
    message for every action of the response, in order. *)
Theorem goBack_goForwards_follow_response (w : t H) :
  (let response := snd (goBackward (_pageHistory w)) in
   suspended (goBack w)
   = suspended w ++ match address response with
                    | Some pagename => [(pagename, false)]
                    | None => []
                    end
   /\ ((exists call, suspended (goBack w) = suspended w ++ [call])
       <-> address response <> None)
   /\ posted (goBack w)
      = posted w ++ map navActionMessage (actions response)
   /\ _pageHistory (goBack w) = fst (goBackward (_pageHistory w)))
  /\
  (let response := snd (goForward (_pageHistory w)) in
   suspended (goForwards w)
   = suspended w ++ match address response with
                    | Some pagename => [(pagename, false)]
                    | None => []
                    end
   /\ ((exists call, suspended (goForwards w) = suspended w ++ [call])
       <-> address response <> None)
   /\ posted (goForwards w)
      = posted w ++ map navActionMessage (actions response)
   /\ _pageHistory (goForwards w) = fst (goForward (_pageHistory w))).
Proof.
  destruct w as [h a x p f s]. cbv zeta. split.
  - unfold goBack. simpl.
    destruct (goBackward h) as [h' [acts [pagename|]]]; simpl;
      rewrite relay_eq; simpl; repeat split; try reflexivity.
    + intros _. discriminate.
    + intros _. now exists (pagename, false).
    + now rewrite app_nil_r.
    + intros [call E]. symmetry in E. now apply app_one_neq in E.
    + intros E. now contradiction E.
  - unfold goForwards. simpl.
    destruct (goForward h) as [h' [acts [pagename|]]]; simpl;
      rewrite relay_eq; simpl; repeat split; try reflexivity.
    + intros _. discriminate.
    + intros _. now exists (pagename, false).
    + now rewrite app_nil_r.
    + intros [call E]. symmetry in E. now apply app_one_neq in E.
    + intros E. now contradiction E.
Qed.

End AnyHistory.

Lemma failed_navigation_leaves_history_witness :
  _pageHistory
    (settle backslashesToSlashes endsWithHtml noHost
       (goToFile "/about.html" true
          (constructor "/index.html" : t HistoryStack.t)))
  = _pageHistory (constructor "/index.html" : t HistoryStack.t).
Proof.
  apply (failed_navigation_leaves_history backslashesToSlashes endsWithHtml
           noHost "/about.html" true (constructor "/index.html")).
  left. reflexivity.
Defined.

(** *** [constructAddress] *)

Lemma dropLeadingSlash_substring (s : string) :
  (if (0 <? String.length s)%nat && JsString.charAt0_is "/" s
   then JsString.substring_from 1 s else s)
  = dropLeadingSlash s.
Proof.
  destruct s as [|c rest]; [reflexivity|].
  rewrite JsStringFacts.charAt0_is_cons. cbn [String.length Nat.ltb Nat.leb
    andb dropLeadingSlash].
  destruct (Ascii.eqb c "/"); [apply JsStringFacts.substring_from_1_cons|].
  reflexivity.
Qed.

Lemma dropLeadingSlash_startsWith (s : string) :
  (if JsString.startsWith "/" s then JsString.substring_from 1 s else s)
  = dropLeadingSlash s.
Proof.
  rewrite JsStringFacts.startsWith_slash.
  destruct s as [|c rest]; [reflexivity|].
  rewrite JsStringFacts.charAt0_is_cons. cbn [dropLeadingSlash].
  destruct (Ascii.eqb c "/"); [apply JsStringFacts.substring_from_1_cons|].
  reflexivity.
Qed.

Lemma dropLeadingSlash_cases (s : string) :
  s = dropLeadingSlash s \/ s = ("/" ++ dropLeadingSlash s)%string.
Proof.
  destruct s as [|c rest]; [now left|]. cbn [dropLeadingSlash].
  destruct (Ascii.eqb c "/") eqn:E; [|now left].
  apply Ascii.eqb_eq in E. subst c. now right.
Qed.

Lemma dropLeadingSlash_id (s : string) :
  beginsWithSlash s = false -> dropLeadingSlash s = s.
Proof.
  destruct s as [|c rest]; [reflexivity|].
  unfold beginsWithSlash. rewrite JsStringFacts.charAt0_is_cons.
  cbn [dropLeadingSlash]. now intros ->.
Qed.

Lemma constructAddress_eq (conv : string -> string) (r : HostResolution)
    (URLExt : string) (h : Uri) :
  constructAddress conv r URLExt (Some h) = Some (hostThenPath conv h URLExt).
Proof.
  unfold constructAddress, hostThenPath.
  now rewrite dropLeadingSlash_substring, dropLeadingSlash_startsWith.
Qed.

(** [C10] With a host given, [constructAddress] returns the host string
    followed by the pathname from which one leading ['/'] is removed
    before the conversion to a unix path and one more after it. The path
    part is the converted pathname, whole or without its first ['/']:
    nothing is put between host and path. In particular a pathname in
    unix form with a single leading separator is appended to the host
    string without that separator. *)
Theorem constructAddress_host_then_path (conv : string -> string)
    (r : HostResolution) (URLExt : string) (h : Uri) :
  constructAddress conv r URLExt (Some h) = Some (hostThenPath conv h URLExt)
  /\ (exists path,
        constructAddress conv r URLExt (Some h)
        = Some (toString h ++ path)%string
        /\ (conv (dropLeadingSlash URLExt) = path
            \/ conv (dropLeadingSlash URLExt) = ("/" ++ path)%string))
  /\ (forall p,
        beginsWithSlash p = false -> conv p = p ->
        constructAddress conv r ("/" ++ p) (Some h)
        = Some (toString h ++ p)%string).
Proof.
  split; [apply constructAddress_eq|]. split.
  - exists (dropLeadingSlash (conv (dropLeadingSlash URLExt))). split.
    + apply constructAddress_eq.
    + apply dropLeadingSlash_cases.
  - intros p Hp Hc. rewrite constructAddress_eq. unfold hostThenPath.
    change (dropLeadingSlash ("/" ++ p)) with p.
    now rewrite Hc, dropLeadingSlash_id.
Qed.

Lemma constructAddress_host_then_path_witness :
  constructAddress backslashesToSlashes noHost "/pages/index.html"
    (Some (mkUri "http" "127.0.0.1:3000" "http://127.0.0.1:3000/"))
  = Some "http://127.0.0.1:3000/pages/index.html".
Proof.
  apply (proj2 (proj2 (constructAddress_host_then_path backslashesToSlashes
                         noHost "/pages/index.html"
                         (mkUri "http" "127.0.0.1:3000"
                                "http://127.0.0.1:3000/")))
           "pages/index.html");
    reflexivity.
Defined.

(** *** [handleNewPageLoad] and the pathname it works with *)

Lemma relativePathname_cases (pathname : string) :
  (pathname = "" /\ relativePathname pathname = "")
  \/ (beginsWithSlash pathname = true
      /\ relativePathname pathname = pathname)
  \/ (pathname <> "" /\ beginsWithSlash pathname = false
      /\ relativePathname pathname = ("/" ++ pathname)%string).
Proof.
  destruct pathname as [|c rest]; [now left|]. right.
  unfold relativePathname, beginsWithSlash.
  rewrite JsStringFacts.charAt0_is_cons.
  cbn [String.length Nat.ltb Nat.leb andb].
  destruct (Ascii.eqb c "/"); [left | right]; repeat split; discriminate.
Qed.

Lemma startsWith_two_slashes (c : ascii) (rest : string) :
  JsString.startsWith "//" (String c rest)
  = Ascii.eqb c "/" && JsString.charAt0_is "/" rest.
Proof.
  unfold JsString.startsWith.
  change (String.prefix "//" (String c rest))
    with (if ascii_dec "/" c then String.prefix "/" rest else false).
  destruct (ascii_dec "/" c) as [<-|N].
  - apply JsStringFacts.startsWith_slash.
  - symmetry. apply andb_false_iff. left. apply Ascii.eqb_neq. congruence.
Qed.

Lemma relativePathname_one_slash (pathname : string) :
  pathname <> "" -> JsString.startsWith "//" pathname = false ->
  beginsWithOneSlash (relativePathname pathname) = true.
Proof.
  destruct pathname as [|c rest]; [congruence|]. intros _.
  rewrite startsWith_two_slashes. unfold relativePathname.
  rewrite JsStringFacts.charAt0_is_cons.
  cbn [String.length Nat.ltb Nat.leb andb].
  destruct (Ascii.eqb c "/") eqn:E; cbn [negb andb].
  - intros Hr. cbn [beginsWithOneSlash]. now rewrite E, Hr.
  - intros _. cbn [append beginsWithOneSlash].
    rewrite JsStringFacts.charAt0_is_cons, E. reflexivity.
Qed.

Lemma addHistory_HistoryStack (a : string) (h : HistoryStack.t) :
  fst (addHistory a h) = fst (HistoryStack.recordNavigation a h).
Proof. reflexivity. Qed.

(** [C5], counterexample: the empty pathname is reported and recorded as
    the empty string, and a pathname with two leading separators keeps
    both. *)
Lemma empty_and_double_slash_pathnames_kept :
  let w : t HistoryStack.t := constructor "/index.html" in
  let w1 := handleNewPageLoad "" "" w in
  let w2 := handleNewPageLoad "//a" "" w in
  map pathname (fired w1) = [""]
  /\ HistoryStack.entries (_pageHistory w1) = ["/index.html"; ""]
  /\ beginsWithOneSlash "" = false
  /\ map pathname (fired w2) = ["//a"]
  /\ HistoryStack.entries (_pageHistory w2) = ["/index.html"; "//a"]
  /\ beginsWithOneSlash "//a" = false.
Proof.
  cbv zeta. repeat split; reflexivity.
Qed.

(** [C5], amended: the pathname that [handleNewPageLoad] reports through
    the panel-title-change event and records as the new tail entry of
    the history is the input itself when that is empty or begins with
    ['/'], and ['/'] followed by the input otherwise. So it begins with
    ['/'] for every input that is not empty, and with exactly one ['/']
    for every such input that does not begin with two of them. *)
Theorem handleNewPageLoad_pathname (pathname panelTitle : string)
    (w : t HistoryStack.t) :
  let p := relativePathname pathname in
  let w' := handleNewPageLoad pathname panelTitle w in
  fired w' = fired w ++ [{| title := panelTitle; pathname := p |}]
  /\ (exists kept, HistoryStack.entries (_pageHistory w') = kept ++ [p])
  /\ (pathname = "" -> p = "")
  /\ (beginsWithSlash pathname = true -> p = pathname)
  /\ (pathname <> "" -> beginsWithSlash pathname = false ->
      p = ("/" ++ pathname)%string)
  /\ (pathname <> "" -> beginsWithSlash p = true)
  /\ (pathname <> "" -> JsString.startsWith "//" pathname = false ->
      beginsWithOneSlash p = true).
Proof.
  cbv zeta. rewrite handleNewPageLoad_eq. cbn [fired _pageHistory].
  split; [reflexivity|]. split.
  { rewrite addHistory_HistoryStack, HistoryStackFacts.recordNavigation_entries.
    now eexists. }
  destruct (relativePathname_cases pathname)
    as [[E0 Ep] | [[Es Ep] | [Ene [Es Ep]]]]; repeat split;
    try congruence; try (intros; apply relativePathname_one_slash; assumption).
  - intros _. rewrite Ep. reflexivity.
Qed.

Lemma handleNewPageLoad_pathname_witness :
  let w : t HistoryStack.t := constructor "/index.html" in
  relativePathname "about.html" = "/about.html"
  /\ beginsWithOneSlash (relativePathname "about.html") = true.
Proof.
  cbv zeta.
  destruct (handleNewPageLoad_pathname "about.html" ""
              (constructor "/index.html"))
    as [_ [_ [_ [_ [Hp [_ Hone]]]]]].
  split.
  - apply Hp; [discriminate | reflexivity].
  - apply Hone; [discriminate | reflexivity].
Defined.

(** [C3], counterexample: an address that is a single space is not
    rejected; once the call of [goToFile] has settled, the history holds
    a second entry for it and the cursor is on that entry. *)
Lemma blank_address_reaches_history :
  let w : t HistoryStack.t :=
    settle backslashesToSlashes endsWithHtml sampleHost
      (constructor "/index.html") in
  let w' :=
    settle backslashesToSlashes endsWithHtml sampleHost
      (goToFile " " true w) in
  JsString.isBlank " " = true
  /\ HistoryStack.entries (_pageHistory w) = ["/index.html"]
  /\ HistoryStack.cursor (_pageHistory w) = 0%Z
  /\ HistoryStack.entries (_pageHistory w') = ["/index.html"; "/ "]
  /\ HistoryStack.cursor (_pageHistory w') = 1%Z
  /\ _pageHistory w' <> _pageHistory w.
Proof.
  cbv zeta. repeat split; try reflexivity.
  vm_compute. discriminate.
Qed.

(** [C3], amended: no address is rejected as invalid. For every address,
    an empty or white-space one included, a navigation that updates the
    history and whose host resolves is fulfilled, and it records the
    address like [handleNewPageLoad] does: the address, with ['/'] put
    in front when it is not empty and does not begin with ['/'], becomes
    the new tail entry after the entries up to the cursor, and the
    cursor moves to it. *)
Theorem every_address_is_recorded (conv : string -> string)
    (inj : string -> bool) (r : HostResolution) (httpHost wsURI : Uri)
    (URLExt panelTitle : string) (w : t HistoryStack.t) :
  resolveHost r = Some httpHost ->
  resolveWsHost r = Some wsURI ->
  let h := _pageHistory w in
  let recorded :=
    HistoryStack.mk
      (firstn (Z.to_nat (HistoryStack.cursor h + 1)) (HistoryStack.entries h)
         ++ [relativePathname URLExt])
      (Z.of_nat
         (List.length
            (firstn (Z.to_nat (HistoryStack.cursor h + 1))
               (HistoryStack.entries h)
             ++ [relativePathname URLExt])) - 1) in
  fst (setHtml conv inj r URLExt true w) = Fulfilled
  /\ _pageHistory (snd (setHtml conv inj r URLExt true w)) = recorded
  /\ _pageHistory (handleNewPageLoad URLExt panelTitle w) = recorded.
Proof.
  intros Eh Ew. cbv zeta.
  destruct (setHtml_history conv inj r URLExt w httpHost wsURI Eh Ew)
    as [Hf Hh].
  split; [exact Hf|]. split.
  - rewrite Hh. reflexivity.
  - rewrite handleNewPageLoad_eq. reflexivity.
Qed.

Lemma every_address_is_recorded_witness :
  let w : t HistoryStack.t := constructor "/index.html" in
  HistoryStack.entries
    (_pageHistory
       (snd (setHtml backslashesToSlashes endsWithHtml sampleHost "" true w)))
  = ["/index.html"; ""].
Proof.
  cbv zeta.
  destruct (every_address_is_recorded backslashesToSlashes endsWithHtml
              sampleHost
              (mkUri "http" "127.0.0.1:3000" "http://127.0.0.1:3000/")
              (mkUri "ws" "127.0.0.1:3001" "ws://127.0.0.1:3001/")
              "" "" (constructor "/index.html") eq_refl eq_refl)
    as [_ [Hh _]].
  rewrite Hh. reflexivity.
Defined.

Lemma setHtml_without_history {H : Type} `{PageHistory H}
    (conv : string -> string) (inj : string -> bool) (r : HostResolution)
    (URLExt : string) (w : t H) :
  _pageHistory (snd (setHtml conv inj r URLExt false w)) = _pageHistory w
  /\ filter isChangedHistory (posted (snd (setHtml conv inj r URLExt false w)))
     = filter isChangedHistory (posted w).
Proof.
  unfold setHtml, constructAddress.
  destruct (resolveHost r) as [httpHost|]; [|split; reflexivity].
  destruct (resolveWsHost r) as [wsURI|]; [|split; reflexivity].
  destruct (inj URLExt); cbn [negb snd]; split; try reflexivity.
  cbn [posted postMessage fire set_html]. rewrite filter_app.
  cbn. now rewrite app_nil_r.
Qed.

Lemma constructor_eq {H : Type} `{PageHistory H} (initialFile : string) :
  (constructor initialFile : t H)
  = mk (fst (addHistory initialFile newPageHistory)) initialFile None
       (map navActionMessage (currentCommands (newPageHistory : H)))
       [] [(initialFile, false)].
Proof.
  unfold constructor, updateForwardBackArrows. rewrite relay_eq. reflexivity.
Qed.

Lemma filter_navActionMessages (xs : list NavEditCommands) :
  filter isChangedHistory (map navActionMessage xs) = map navActionMessage xs.
Proof.
  induction xs as [|x xs IH]; [reflexivity|].
  cbn [map filter]. rewrite IH. reflexivity.
Qed.

Lemma constructor_settled {H : Type} `{PageHistory H}
    (conv : string -> string) (inj : string -> bool) (r : HostResolution)
    (initialFile : string) :
  let w : t H := settle conv inj r (constructor initialFile) in
  filter isChangedHistory (posted w)
  = map navActionMessage (currentCommands (newPageHistory : H))
  /\ _pageHistory w = fst (addHistory initialFile newPageHistory).
Proof.
  cbv zeta. rewrite constructor_eq. unfold settle.
  cbn [suspended clear_suspended fold_left fst snd].
  unfold clear_suspended.
  cbn [_pageHistory posted html fired currentAddress].
  destruct (setHtml_without_history conv inj r initialFile
              (mk (fst (addHistory initialFile (newPageHistory : H)))
                 initialFile None
                 (map navActionMessage (currentCommands (newPageHistory : H)))
                 [] []))
    as [Hh Hp].
  rewrite Hh, Hp. split; [apply filter_navActionMessages | reflexivity].
Qed.

(** Creating a panel posts the enable/disable state of each
    direction once. For every history, the [changed-history] messages
    posted by the time the constructor's navigation has settled, whether
    or not the host resolves, are those of the current commands of the
    new history, each once. With the history stack they are one for
    [back] and one for [forward], both with [disabled: true]; the
    history then holds one entry, the initial file, and what was posted
    is its current state. *)
Theorem constructor_posts_button_state_once (conv : string -> string)
    (inj : string -> bool) (r : HostResolution) (initialFile : string) :
  (forall (H : Type) (ops : PageHistory H),
      filter isChangedHistory
        (posted (settle conv inj r (constructor initialFile : t H)))
      = map navActionMessage (currentCommands (newPageHistory : H)))
  /\
  (let w : t HistoryStack.t := settle conv inj r (constructor initialFile) in
   Permutation (filter isChangedHistory (posted w))
     [navActionMessage DISABLE_BACK; navActionMessage DISABLE_FORWARD]
   /\ HistoryStack.entries (_pageHistory w) = [initialFile]
   /\ HistoryStack.cursor (_pageHistory w) = 0%Z
   /\ Permutation (filter isChangedHistory (posted w))
        (map navActionMessage (currentCommands (_pageHistory w)))).
Proof.
  split.
  - intros H ops. apply (constructor_settled conv inj r initialFile).
  - cbv zeta.
    destruct (constructor_settled (H := HistoryStack.t) conv inj r initialFile)
      as [Ep Eh].
    rewrite Ep, Eh. repeat split; apply Permutation_refl.
Qed.

End WebviewCommFacts.

(** ** The display surface *)

Module DisplaySurfaceFacts.

Import DisplaySurface.

Ltac by_command cmd :=
  repeat match goal with
         | |- context [if (cmd =? ?s)%string then _ else _] =>
             destruct (String.eqb_spec cmd s) as [->|?]
         end.

Lemma onWindowMessage_toSocket (m : Message) (d : t) :
  toSocket (onWindowMessage m d)
  = toSocket d ++ (if command m =? "perform-url-check"
                   then [urlCheck (text m)] else []).
Proof.
  destruct m as [cmd txt]. unfold onWindowMessage. cbn [command text].
  destruct (String.eqb_spec cmd "perform-url-check") as [->|Hn].
  - reflexivity.
  - rewrite app_nil_r. by_command cmd; try reflexivity.
    + destruct (JSON_parse txt) as [msgJSON|]; [|reflexivity].
      destruct (jget "fullPath" msgJSON); reflexivity.
    + destruct (JSON_parse txt); reflexivity.
Qed.

Lemma onSocketMessage_toSocket (data : JVal) (d : t) :
  toSocket (onSocketMessage data d) = toSocket d.
Proof.
  unfold onSocketMessage.
  destruct (JSON_parse data) as [parsedMessage|]; [|reflexivity].
  destruct (jget "command" parsedMessage); try reflexivity.
  destruct (s =? "foundNonInjectable"); reflexivity.
Qed.

Lemma isUrlCheckFor_urlCheck (url : string) (x : JVal) :
  isUrlCheckFor url (urlCheck x)
  = match x with
    | JStr u => String.eqb u url
    | _ => false
    end.
Proof. destruct x; reflexivity. Qed.

Lemma urlChecksFor_app (url : string) (xs ys : list JVal) :
  urlChecksFor url (xs ++ ys) = urlChecksFor url xs + urlChecksFor url ys.
Proof.
  unfold urlChecksFor. now rewrite filter_app, length_app.
Qed.

Lemma handle_urlChecks (url : string) (e : Event) (d : t) :
  urlChecksFor url (toSocket (handle e d))
  = urlChecksFor url (toSocket d)
    + (if isPerformUrlCheckFor url e then 1 else 0).
Proof.
  destruct e as [ | | | | |keyCode value|m|data]; cbn [handle isPerformUrlCheckFor];
    try (cbn; now rewrite Nat.add_0_r).
  - destruct (keyCode =? 13)%Z; cbn; now rewrite Nat.add_0_r.
  - rewrite onWindowMessage_toSocket, urlChecksFor_app. f_equal.
    destruct (command m =? "perform-url-check"); [|reflexivity].
    unfold urlChecksFor. cbn [filter andb].
    rewrite isUrlCheckFor_urlCheck.
    destruct (text m) as [ |u|b|fields|v]; try reflexivity.
    destruct (u =? url); reflexivity.
  - rewrite onSocketMessage_toSocket. now rewrite Nat.add_0_r.
Qed.

(** [C1], counterexample: two requests to check the address [/a], with
    nothing received over the socket in between, put two [urlCheck]
    texts for [/a] on the socket. *)
Lemma repeated_url_check_is_sent_twice :
  let d := handleAll [performUrlCheck "/a"; performUrlCheck "/a"] (init "/") in
  toSocket d = [urlCheck (JStr "/a"); urlCheck (JStr "/a")]
  /\ urlChecksFor "/a" (toSocket d) = 2
  /\ urlChecksFor "/a" (toSocket d) <> 1.
Proof.
  cbv zeta. split; [reflexivity|]. split; [reflexivity|].
  vm_compute. discriminate.
Qed.

(** [C1], amended: the display surface sends one [urlCheck] text for an
    address over the socket for every request to check that address it
    receives, whether or not an earlier check of the address is still
    unanswered; nothing else it handles sends one. *)
Theorem one_url_check_per_request (url : string) (es : list Event) :
  forall d : t,
    urlChecksFor url (toSocket (handleAll es d))
    = urlChecksFor url (toSocket d)
      + List.length (filter (isPerformUrlCheckFor url) es).
Proof.
  unfold handleAll.
  induction es as [|e es IH]; intros d; cbn [fold_left filter].
  - cbn. now rewrite Nat.add_0_r.
  - rewrite IH, handle_urlChecks.
    destruct (isPerformUrlCheckFor url e); cbn [List.length]; lia.
Qed.

(** [C2] The controller posts, for the action [DISABLE_BACK], the message
    [{command: "changed-history", text: {element: "back", disabled:
    true}}]; the window listener of the display surface has no case for
    that command, so the [back] button, enabled in the markup, stays
    enabled, where the older [disable-back] message does disable it. No
    [changed-history] message changes the display surface, and the two
    messages a new panel posts leave both buttons enabled. *)
Theorem changed_history_is_not_applied :
  let m := WebviewComm.navActionMessage DISABLE_BACK in
  m = {| command := "changed-history";
         text := JText (JObj [("element", JStr "back");
                              ("disabled", JBool true)]) |}
  /\ back_disabled (init "/") = false
  /\ back_disabled (handle (WindowMessage m) (init "/")) = false
  /\ back_disabled
       (handle (WindowMessage {| command := "disable-back";
                                 text := JUndefined |}) (init "/")) = true
  /\ (forall (c : NavEditCommands) (d : t),
        onWindowMessage (WebviewComm.navActionMessage c) d = d)
  /\ (let w : WebviewComm.t HistoryStack.t :=
        WebviewComm.settle backslashesToSlashes endsWithHtml sampleHost
          (WebviewComm.constructor "/index.html") in
      let d :=
        handleAll (map WindowMessage (WebviewComm.posted w)) (init "/") in
      WebviewComm.posted w
      = map WebviewComm.navActionMessage [DISABLE_BACK; DISABLE_FORWARD]
      /\ back_disabled d = false
      /\ forward_disabled d = false).
Proof.
  cbv zeta. repeat split; reflexivity.
Qed.

End DisplaySurfaceFacts.

(** ** The controller: further properties *)

Module WebviewCommMore.

Import WebviewComm WebviewCommFacts WebviewCommCalls.

(** *** Addresses *)

Lemma constructAddress_any (conv : string -> string) (r : HostResolution)
    (URLExt : string) (hostURI : option Uri) :
  constructAddress conv r URLExt hostURI
  = match (match hostURI with
           | Some h => Some h
           | None => resolveHost r
           end) with
    | Some h => Some (hostThenPath conv h URLExt)
    | None => None
    end.
Proof.
  unfold constructAddress, hostThenPath.
  now rewrite dropLeadingSlash_substring, dropLeadingSlash_startsWith.
Qed.

Lemma dropLeadingSlash_relativePathname (p : string) :
  dropLeadingSlash (relativePathname p) = dropLeadingSlash p.
Proof.
  destruct (relativePathname_cases p) as [[E0 E] | [[_ E] | [_ [Hs E]]]];
    rewrite E.
  - now rewrite E0.
  - reflexivity.
  - rewrite (dropLeadingSlash_id p Hs). reflexivity.
Qed.

(** The pathname [handleNewPageLoad] works with is a fixed point of its
    own first statement: a pathname it has made relative is left as it
    is, so a page load reported twice with the result of the first
    report has the effect of the first. *)
Theorem relativePathname_idempotent {H : Type} `{PageHistory H}
    (pathname panelTitle : string) (w : t H) :
  relativePathname (relativePathname pathname) = relativePathname pathname
  /\ handleNewPageLoad (relativePathname pathname) panelTitle w
     = handleNewPageLoad pathname panelTitle w.
Proof.
  assert (E : relativePathname (relativePathname pathname)
              = relativePathname pathname).
  { destruct (relativePathname_cases pathname)
      as [[E0 E] | [[Hs E] | [Hn [Hs E]]]].
    - now rewrite E.
    - now rewrite E, E.
    - rewrite E. reflexivity. }
  split; [exact E|].
  rewrite !handleNewPageLoad_eq. cbv zeta. now rewrite E.
Qed.

(** The ['/'] that [handleNewPageLoad] puts in front of a pathname does
    not change the address [constructAddress] builds: the pathname
    recorded for a page and the pathname the page was requested with give
    the same address, with or without a host passed in. *)
Theorem constructAddress_relativePathname (conv : string -> string)
    (r : HostResolution) (pathname : string) (hostURI : option Uri) :
  constructAddress conv r (relativePathname pathname) hostURI
  = constructAddress conv r pathname hostURI.
Proof.
  rewrite !constructAddress_any. unfold hostThenPath.
  now rewrite dropLeadingSlash_relativePathname.
Qed.

(** Without a host passed in, [constructAddress] resolves the host
    itself: it is rejected exactly when that resolution is, and otherwise
    returns what it returns for the resolved host. *)
Theorem constructAddress_resolves_host (conv : string -> string)
    (r : HostResolution) (URLExt : string) :
  constructAddress conv r URLExt None
  = match resolveExternalHTTPUri r with
    | Some h => constructAddress conv r URLExt (Some h)
    | None => None
    end
  /\ (constructAddress conv r URLExt None = None
      <-> resolveExternalHTTPUri r = None).
Proof.
  rewrite constructAddress_any. unfold resolveHost.
  destruct (resolveExternalHTTPUri r) as [h|].
  - rewrite constructAddress_any. split; [reflexivity|].
    split; discriminate.
  - split; [reflexivity|]. split; reflexivity.
Qed.

(** *** [setUrlBar] *)

Section AnyHistory.

Context {H : Type} `{PageHistory H}.
Variable conv : string -> string.
Variable inj : string -> bool.

(** When the host cannot be resolved, [setUrlBar] is rejected before it
    has posted anything or touched the history: the controller is as it
    was. *)
Theorem setUrlBar_rejected (r : HostResolution) (pathname : string)
    (w : t H) :
  resolveHost r = None ->
  setUrlBar conv r pathname w = (Rejected, w).
Proof.
  intros E. unfold setUrlBar. rewrite constructAddress_any. now rewrite E.
Qed.

(** When the host resolves, [setUrlBar] posts one [set-url] message,
    with the address built for the pathname and the pathname as it was
    given, ahead of the button messages of the page load; the history
    and [currentAddress] get the pathname made relative, and one title
    event with an empty title is fired. *)
Theorem setUrlBar_fulfilled (r : HostResolution) (h : Uri)
    (pathname : string) (w : t H) :
  resolveHost r = Some h ->
  let w' := snd (setUrlBar conv r pathname w) in
  fst (setUrlBar conv r pathname w) = Fulfilled
  /\ posted w'
     = posted w ++ setUrlMessage (hostThenPath conv h pathname) pathname
                   :: relayed pathname w
  /\ currentAddress w' = relativePathname pathname
  /\ _pageHistory w'
     = fst (addHistory (relativePathname pathname) (_pageHistory w))
  /\ fired w'
     = fired w ++ [{| title := ""; pathname := relativePathname pathname |}]
  /\ html w' = html w
  /\ suspended w' = suspended w.
Proof.
  intros E. cbv zeta. unfold setUrlBar, relayed.
  rewrite constructAddress_any, E. cbn [fst snd].
  rewrite handleNewPageLoad_eq. destruct w as [h0 a x p f s].
  cbn. rewrite <- app_assoc. repeat split; reflexivity.
Qed.

(** *** [setHtml] and the calls it is resumed for *)

Lemma setHtml_fulfilled_eq (r : HostResolution) (h ws : Uri)
    (URLExt : string) (updateHistory : bool) (w : t H) :
  resolveHost r = Some h ->
  resolveWsHost r = Some ws ->
  setHtml conv inj r URLExt updateHistory w
  = (Fulfilled,
     let w1 :=
       set_html
         (mkHtml (hostThenPath conv h URLExt)
            ("ws://" ++ authority ws)%string
            (scheme h ++ "://" ++ authority h)%string) w in
     let w2 :=
       if inj URLExt then w1
       else postMessage (setUrlMessage (hostThenPath conv h URLExt) URLExt)
              (fire {| title := ""; pathname := URLExt |} w1) in
     if updateHistory then handleNewPageLoad URLExt "" w2 else w2).
Proof.
  intros Eh Ew. unfold setHtml. rewrite Eh, constructAddress_any, Ew.
  unfold getHtmlForWebview. destruct (inj URLExt); reflexivity.
Qed.

Lemma setHtml_replay_eq (r : HostResolution) (URLExt : string) (w : t H) :
  snd (setHtml conv inj r URLExt false w)
  = match resolveHost r, resolveWsHost r with
    | Some h, Some ws =>
        mk (_pageHistory w) (currentAddress w)
           (Some (mkHtml (hostThenPath conv h URLExt)
                    ("ws://" ++ authority ws)%string
                    (scheme h ++ "://" ++ authority h)%string))
           (posted w ++ urlMessages conv inj r URLExt)
           (fired w ++ if inj URLExt then []
                       else [{| title := ""; pathname := URLExt |}])
           (suspended w)
    | _, _ => w
    end.
Proof.
  unfold urlMessages.
  destruct (resolveHost r) as [h|] eqn:Eh;
    [|now rewrite setHtml_rejected by (now left)].
  destruct (resolveWsHost r) as [ws|] eqn:Ew;
    [|now rewrite setHtml_rejected by (now right)].
  rewrite (setHtml_fulfilled_eq r h ws URLExt false w Eh Ew).
  destruct w as [h0 a x p f s]. cbn.
  destruct (inj URLExt); cbn; now rewrite ?app_nil_r.
Qed.

Lemma settle_nothing (r : HostResolution) (w : t H) :
  suspended w = [] -> settle conv inj r w = w.
Proof.
  intros E. unfold settle. rewrite E. destruct w as [h0 a x p f s].
  cbn in *. now subst.
Qed.

Lemma settle_one (r : HostResolution) (URLExt : string)
    (updateHistory : bool) (w : t H) :
  suspended w = [(URLExt, updateHistory)] ->
  settle conv inj r w
  = snd (setHtml conv inj r URLExt updateHistory (clear_suspended w)).
Proof.
  intros E. unfold settle. now rewrite E.
Qed.

(** A navigation whose host resolves loads into the frame the address
    built for the pathname; for a file that is not injectable it posts a
    [set-url] message with that same address, and the display surface,
    on receiving it, shows that address in the url input and keeps the
    pathname as its current address, changing nothing else. *)
Theorem url_bar_shows_frame_address (r : HostResolution) (h ws : Uri)
    (URLExt : string) (updateHistory : bool) (w : t H) :
  resolveHost r = Some h ->
  resolveWsHost r = Some ws ->
  inj URLExt = false ->
  let w' := snd (setHtml conv inj r URLExt updateHistory w) in
  let url := hostThenPath conv h URLExt in
  option_map httpURL (html w') = Some url
  /\ In (setUrlMessage url URLExt) (posted w')
  /\ (forall d : DisplaySurface.t,
        DisplaySurface.onWindowMessage (setUrlMessage url URLExt) d
        = DisplaySurface.setState (JStr URLExt)
            (DisplaySurface.set_url_input (JStr url) d)).
Proof.
  intros Eh Ew Ei. cbv zeta.
  rewrite (setHtml_fulfilled_eq r h ws URLExt updateHistory w Eh Ew).
  cbn [snd]. rewrite Ei.
  destruct updateHistory; [rewrite handleNewPageLoad_eq|];
    destruct w as [h0 a x p f s]; cbn;
    (split; [reflexivity|]); (split; [|reflexivity]).
  - rewrite <- app_assoc. apply in_or_app. right. now left.
  - apply in_or_app. right. now left.
Qed.

(** A navigation to an injectable file that does not update the history
    only replaces the html of the panel: no message is posted, no event
    fired, and the history and [currentAddress] stay as they are. *)
Theorem injectable_replay_only_sets_html (r : HostResolution)
    (URLExt : string) (w : t H) :
  inj URLExt = true ->
  let w' := snd (setHtml conv inj r URLExt false w) in
  posted w' = posted w
  /\ fired w' = fired w
  /\ _pageHistory w' = _pageHistory w
  /\ currentAddress w' = currentAddress w
  /\ suspended w' = suspended w.
Proof.
  intros Ei. cbv zeta. rewrite setHtml_replay_eq. unfold urlMessages.
  rewrite Ei.
  destruct (resolveHost r), (resolveWsHost r); cbn;
    rewrite ?app_nil_r; repeat split; reflexivity.
Qed.

(** Going back never records: on a controller with no call suspended,
    once the replay that [goBack] starts has settled, the history is the
    one [goBackward] returned, nothing is left suspended, and the posted
    messages are those before the call, then one per action of the
    response, then the [set-url] of the replay when there is one. The
    same holds of [goForwards]. *)
Theorem replays_do_not_record (r : HostResolution) (w : t H) :
  suspended w = [] ->
  (let response := snd (goBackward (_pageHistory w)) in
   let w' := settle conv inj r (goBack w) in
   _pageHistory w' = fst (goBackward (_pageHistory w))
   /\ suspended w' = []
   /\ posted w'
      = posted w ++ map navActionMessage (actions response)
        ++ match address response with
           | Some pagename => urlMessages conv inj r pagename
           | None => []
           end)
  /\
  (let response := snd (goForward (_pageHistory w)) in
   let w' := settle conv inj r (goForwards w) in
   _pageHistory w' = fst (goForward (_pageHistory w))
   /\ suspended w' = []
   /\ posted w'
      = posted w ++ map navActionMessage (actions response)
        ++ match address response with
           | Some pagename => urlMessages conv inj r pagename
           | None => []
           end).
Proof.
  intros Es. destruct w as [h0 a x p f s]. cbn in Es. subst s.
  cbv zeta. split.
  - unfold goBack. cbn [_pageHistory set_pageHistory].
    destruct (goBackward h0) as [h' [acts [pagename|]]];
      cbn [address actions fst snd]; rewrite relay_eq.
    + rewrite (settle_one r pagename false) by reflexivity.
      rewrite setHtml_replay_eq. unfold urlMessages. cbn.
      destruct (resolveHost r), (resolveWsHost r); cbn;
        rewrite <- ?app_assoc, ?app_nil_r; repeat split; reflexivity.
    + rewrite settle_nothing by reflexivity. cbn.
      rewrite ?app_nil_r. repeat split; reflexivity.
  - unfold goForwards. cbn [_pageHistory set_pageHistory].
    destruct (goForward h0) as [h' [acts [pagename|]]];
      cbn [address actions fst snd]; rewrite relay_eq.
    + rewrite (settle_one r pagename false) by reflexivity.
      rewrite setHtml_replay_eq. unfold urlMessages. cbn.
      destruct (resolveHost r), (resolveWsHost r); cbn;
        rewrite <- ?app_assoc, ?app_nil_r; repeat split; reflexivity.
    + rewrite settle_nothing by reflexivity. cbn.
      rewrite ?app_nil_r. repeat split; reflexivity.
Qed.

(** [goToFile] sets [currentAddress] to the pathname as given at once;
    on a controller with no other call suspended, once the call has
    settled, [currentAddress] is the pathname made relative when the
    history was to be updated and the host resolved, and is still the
    pathname as given otherwise, also when the navigation was rejected. *)
Theorem currentAddress_after_goToFile (r : HostResolution)
    (URLExt : string) (updateHistory : bool) (w : t H) :
  suspended w = [] ->
  currentAddress (goToFile URLExt updateHistory w) = URLExt
  /\ currentAddress (settle conv inj r (goToFile URLExt updateHistory w))
     = if updateHistory && resolved r then relativePathname URLExt
       else URLExt.
Proof.
  intros Es. split; [reflexivity|]. unfold resolved.
  destruct w as [h0 a x p f s]. cbn in Es. subst s.
  rewrite (settle_one r URLExt updateHistory) by reflexivity.
  destruct (resolveHost r) as [h|] eqn:Eh;
    [|rewrite setHtml_rejected by (now left);
      now rewrite andb_false_r].
  destruct (resolveWsHost r) as [ws|] eqn:Ew;
    [|rewrite setHtml_rejected by (now right);
      now rewrite andb_false_r].
  rewrite (setHtml_fulfilled_eq r h ws URLExt updateHistory _ Eh Ew).
  cbn [snd]. destruct updateHistory; cbn [andb].
  - now rewrite handleNewPageLoad_eq.
  - destruct (inj URLExt); reflexivity.
Qed.

(** *** What the controller posts *)

Lemma extends_refl (w w' : t H) : posted w' = posted w -> extends w w'.
Proof. intros E. exists []. now rewrite app_nil_r. Qed.

Lemma extends_trans (w1 w2 w3 : t H) :
  extends w1 w2 -> extends w2 w3 -> extends w1 w3.
Proof.
  intros [ms1 [E1 F1]] [ms2 [E2 F2]]. exists (ms1 ++ ms2). split.
  - now rewrite E2, E1, app_assoc.
  - now rewrite forallb_app, F1, F2.
Qed.

Lemma navActionMessages_allowed (xs : list NavEditCommands) :
  forallb isControllerCommand (map navActionMessage xs) = true.
Proof. induction xs as [|x xs IH]; [reflexivity | exact IH]. Qed.

Lemma relay_extends (xs : list NavEditCommands) (w : t H) :
  extends w (relay xs w).
Proof.
  exists (map navActionMessage xs). rewrite relay_eq. split;
    [reflexivity | apply navActionMessages_allowed].
Qed.

Lemma handleNewPageLoad_extends (pathname panelTitle : string) (w : t H) :
  extends w (handleNewPageLoad pathname panelTitle w).
Proof.
  rewrite handleNewPageLoad_eq. cbv zeta. eexists. split; [reflexivity|].
  destruct (snd (addHistory (relativePathname pathname) (_pageHistory w)));
    [apply navActionMessages_allowed | reflexivity].
Qed.

Lemma setHtml_extends (r : HostResolution) (URLExt : string)
    (updateHistory : bool) (w : t H) :
  extends w (snd (setHtml conv inj r URLExt updateHistory w)).
Proof.
  destruct (resolveHost r) as [h|] eqn:Eh;
    [|rewrite setHtml_rejected by (now left); now apply extends_refl].
  destruct (resolveWsHost r) as [ws|] eqn:Ew;
    [|rewrite setHtml_rejected by (now right); now apply extends_refl].
  rewrite (setHtml_fulfilled_eq r h ws URLExt updateHistory w Eh Ew).
  cbn [snd]. cbv zeta.
  assert (E2 : extends w
                 (if inj URLExt
                  then set_html
                         (mkHtml (hostThenPath conv h URLExt)
                            ("ws://" ++ authority ws)%string
                            (scheme h ++ "://" ++ authority h)%string) w
                  else postMessage
                         (setUrlMessage (hostThenPath conv h URLExt) URLExt)
                         (fire {| title := ""; pathname := URLExt |}
                            (set_html
                               (mkHtml (hostThenPath conv h URLExt)
                                  ("ws://" ++ authority ws)%string
                                  (scheme h ++ "://" ++ authority h)%string)
                               w)))).
  { destruct (inj URLExt); [now apply extends_refl|].
    eexists. split; [reflexivity | reflexivity]. }
  destruct updateHistory; [|exact E2].
  eapply extends_trans; [exact E2 | apply handleNewPageLoad_extends].
Qed.

Lemma settle_extends (r : HostResolution) (w : t H) :
  extends w (settle conv inj r w).
Proof.
  unfold settle.
  apply extends_trans with (w2 := clear_suspended w);
    [now apply extends_refl|].
  generalize (clear_suspended w) as acc.
  induction (suspended w) as [|c cs IH]; intros acc; cbn [fold_left].
  - now apply extends_refl.
  - eapply extends_trans; [apply setHtml_extends | apply IH].
Qed.

Lemma setUrlBar_extends (r : HostResolution) (pathname : string) (w : t H) :
  extends w (snd (setUrlBar conv r pathname w)).
Proof.
  unfold setUrlBar. rewrite constructAddress_any.
  destruct (resolveHost r) as [h|]; [|now apply extends_refl].
  cbn [snd].
  eapply extends_trans; [|apply handleNewPageLoad_extends].
  eexists. split; reflexivity.
Qed.

Lemma goBack_extends (w : t H) : extends w (goBack w).
Proof.
  unfold goBack. destruct (goBackward (_pageHistory w)) as [h' response].
  eapply extends_trans; [|apply relay_extends].
  destruct (address response); now apply extends_refl.
Qed.

Lemma goForwards_extends (w : t H) : extends w (goForwards w).
Proof.
  unfold goForwards. destruct (goForward (_pageHistory w)) as [h' response].
  eapply extends_trans; [|apply relay_extends].
  destruct (address response); now apply extends_refl.
Qed.

Lemma call_extends (c : Call) (w : t H) : extends w (call conv inj c w).
Proof.
  destruct c as [u b|r u b|r u|c|u pt| | | |r]; cbn [call].
  - now apply extends_refl.
  - apply setHtml_extends.
  - apply setUrlBar_extends.
  - apply (relay_extends [c] w).
  - apply handleNewPageLoad_extends.
  - apply relay_extends.
  - apply goForwards_extends.
  - apply goBack_extends.
  - apply settle_extends.
Qed.

Lemma calls_extends (cs : list Call) :
  forall w : t H, extends w (calls conv inj cs w).
Proof.
  unfold calls.
  induction cs as [|c cs IH]; intros w; cbn [fold_left].
  - now apply extends_refl.
  - eapply extends_trans; [apply call_extends | apply IH].
Qed.

Lemma posted_allowed (initialFile : string) (cs : list Call) :
  forallb isControllerCommand
    (posted (calls conv inj cs (constructor initialFile : t H))) = true.
Proof.
  destruct (calls_extends cs (constructor initialFile)) as [ms [E F]].
  rewrite E, constructor_eq, forallb_app, F. cbn [posted].
  now rewrite navActionMessages_allowed.
Qed.

(** Whatever methods are called on a panel after its construction, and
    however the host promises settle, every message the controller has
    posted to the webview is a [set-url] or a [changed-history] message. *)
Theorem controller_posts_two_commands (initialFile : string)
    (cs : list Call) :
  Forall (fun m => command m = "set-url" \/ command m = "changed-history")
    (posted (calls conv inj cs (constructor initialFile : t H))).
Proof.
  apply Forall_forall. intros m Hin.
  pose proof (posted_allowed initialFile cs) as F.
  rewrite forallb_forall in F. specialize (F m Hin).
  unfold isControllerCommand in F. apply orb_true_iff in F.
  destruct F as [F|F]; apply String.eqb_eq in F; [now left | now right].
Qed.

Lemma controller_message_keeps_buttons (m : Message) (d : DisplaySurface.t) :
  isControllerCommand m = true ->
  DisplaySurface.back_disabled (DisplaySurface.onWindowMessage m d)
  = DisplaySurface.back_disabled d
  /\ DisplaySurface.forward_disabled (DisplaySurface.onWindowMessage m d)
     = DisplaySurface.forward_disabled d.
Proof.
  destruct m as [cmd txt]. unfold isControllerCommand. cbn [command].
  intros F. apply orb_true_iff in F.
  destruct F as [F|F]; apply String.eqb_eq in F; subst cmd.
  - unfold DisplaySurface.onWindowMessage. cbn.
    destruct (JSON_parse txt); split; reflexivity.
  - split; reflexivity.
Qed.

Lemma controller_messages_keep_buttons (ms : list Message) :
  forallb isControllerCommand ms = true ->
  forall d : DisplaySurface.t,
    DisplaySurface.back_disabled
      (DisplaySurface.handleAll (map DisplaySurface.WindowMessage ms) d)
    = DisplaySurface.back_disabled d
    /\ DisplaySurface.forward_disabled
         (DisplaySurface.handleAll (map DisplaySurface.WindowMessage ms) d)
       = DisplaySurface.forward_disabled d.
Proof.
  unfold DisplaySurface.handleAll.
  induction ms as [|m ms IH]; intros F d; [split; reflexivity|].
  cbn [forallb] in F. apply andb_true_iff in F. destruct F as [Fm Fms].
  cbn [map fold_left DisplaySurface.handle].
  destruct (IH Fms (DisplaySurface.onWindowMessage m d)) as [Eb Ef].
  destruct (controller_message_keeps_buttons m d Fm) as [Eb' Ef'].
  rewrite Eb, Ef, Eb', Ef'. split; reflexivity.
Qed.

(** Whatever methods are called on a panel after its construction, the
    messages the controller has posted, delivered in order to the window
    listener of the display surface, leave the [disabled] property of
    the back and forward buttons as it was. *)
Theorem posted_messages_never_move_buttons (initialFile : string)
    (cs : list Call) (d : DisplaySurface.t) :
  let w : t H := calls conv inj cs (constructor initialFile) in
  let d' :=
    DisplaySurface.handleAll (map DisplaySurface.WindowMessage (posted w)) d in
  DisplaySurface.back_disabled d' = DisplaySurface.back_disabled d
  /\ DisplaySurface.forward_disabled d' = DisplaySurface.forward_disabled d.
Proof.
  cbv zeta. apply controller_messages_keep_buttons, posted_allowed.
Qed.

End AnyHistory.

(** [C9] Creating a panel posts the state of both directions once, both
    with [disabled: true], and leaves a history of one entry; but the
    window listener of the display surface has no case for
    [changed-history], so when everything the constructor has posted is
    delivered to a page as loaded, the back and forward buttons are still
    enabled. This holds for every initial file and however the host
    promises settle. *)
Theorem new_panel_buttons_stay_enabled (conv : string -> string)
    (inj : string -> bool) (r : HostResolution)
    (initialFile locationPathname : string) :
  let w : t HistoryStack.t := settle conv inj r (constructor initialFile) in
  let d :=
    DisplaySurface.handleAll
      (map DisplaySurface.WindowMessage (posted w))
      (DisplaySurface.init locationPathname) in
  HistoryStack.entries (_pageHistory w) = [initialFile]
  /\ filter isChangedHistory (posted w)
     = [navActionMessage DISABLE_BACK; navActionMessage DISABLE_FORWARD]
  /\ DisplaySurface.back_disabled d = false
  /\ DisplaySurface.forward_disabled d = false.
Proof.
  cbv zeta.
  destruct (constructor_settled (H := HistoryStack.t) conv inj r initialFile)
    as [Ep Eh].
  split; [now rewrite Eh|]. split; [exact Ep|].
  apply (controller_messages_keep_buttons
           (posted (settle conv inj r
                      (constructor initialFile : t HistoryStack.t)))
           (posted_allowed conv inj initialFile [Resume r])
           (DisplaySurface.init locationPathname)).
Qed.

Lemma setUrlBar_rejected_witness :
  setUrlBar backslashesToSlashes noHost "/about.html"
    (constructor "/index.html" : t HistoryStack.t)
  = (Rejected, constructor "/index.html").
Proof.
  apply (setUrlBar_rejected backslashesToSlashes noHost "/about.html"
           (constructor "/index.html")).
  reflexivity.
Defined.

Lemma setUrlBar_fulfilled_witness :
  let w : t HistoryStack.t := constructor "/index.html" in
  currentAddress (snd (setUrlBar backslashesToSlashes sampleHost "a.pdf" w))
  = "/a.pdf".
Proof.
  cbv zeta.
  destruct (setUrlBar_fulfilled backslashesToSlashes sampleHost
              (mkUri "http" "127.0.0.1:3000" "http://127.0.0.1:3000/")
              "a.pdf" (constructor "/index.html" : t HistoryStack.t)
              eq_refl)
    as [_ [_ [Hc _]]].
  rewrite Hc. reflexivity.
Defined.

Lemma url_bar_shows_frame_address_witness :
  let w : t HistoryStack.t := constructor "/index.html" in
  option_map httpURL
    (html (snd (setHtml backslashesToSlashes endsWithHtml sampleHost
                  "/a.pdf" true w)))
  = Some "http://127.0.0.1:3000/a.pdf".
Proof.
  cbv zeta.
  destruct (url_bar_shows_frame_address backslashesToSlashes endsWithHtml
              sampleHost
              (mkUri "http" "127.0.0.1:3000" "http://127.0.0.1:3000/")
              (mkUri "ws" "127.0.0.1:3001" "ws://127.0.0.1:3001/")
              "/a.pdf" true (constructor "/index.html" : t HistoryStack.t)
              eq_refl eq_refl eq_refl)
    as [Hh _].
  rewrite Hh. reflexivity.
Defined.

Lemma injectable_replay_only_sets_html_witness :
  let w : t HistoryStack.t := constructor "/index.html" in
  posted (snd (setHtml backslashesToSlashes endsWithHtml sampleHost
                 "/about.html" false w))
  = posted w.
Proof.
  cbv zeta.
  apply (injectable_replay_only_sets_html backslashesToSlashes endsWithHtml
           sampleHost "/about.html"
           (constructor "/index.html" : t HistoryStack.t)).
  reflexivity.
Defined.

Lemma replays_do_not_record_witness :
  let w : t HistoryStack.t :=
    snd (setHtml backslashesToSlashes endsWithHtml sampleHost "/about.html"
           true
           (settle backslashesToSlashes endsWithHtml sampleHost
              (constructor "/index.html"))) in
  HistoryStack.entries
    (_pageHistory (settle backslashesToSlashes endsWithHtml sampleHost
                     (goBack w)))
  = ["/index.html"; "/about.html"].
Proof.
  cbv zeta.
  destruct (replays_do_not_record backslashesToSlashes endsWithHtml
              sampleHost
              (snd (setHtml backslashesToSlashes endsWithHtml sampleHost
                      "/about.html" true
                      (settle backslashesToSlashes endsWithHtml sampleHost
                         (constructor "/index.html" : t HistoryStack.t)))))
    as [[Hh _] _]; [reflexivity|].
  rewrite Hh. reflexivity.
Defined.

Lemma currentAddress_after_goToFile_witness :
  let w : t HistoryStack.t :=
    settle backslashesToSlashes endsWithHtml sampleHost
      (constructor "/index.html") in
  currentAddress
    (settle backslashesToSlashes endsWithHtml noHost
       (goToFile "about.html" true w))
  = "about.html".
Proof.
  cbv zeta.
  destruct (currentAddress_after_goToFile backslashesToSlashes endsWithHtml
              noHost "about.html" true
              (settle backslashesToSlashes endsWithHtml sampleHost
                 (constructor "/index.html" : t HistoryStack.t)))
    as [_ Hc]; [reflexivity|].
  rewrite Hc. reflexivity.
Defined.

End WebviewCommMore.

(** ** The display surface: further properties *)

Module DisplaySurfaceMore.

Import DisplaySurface DisplaySurfaceFacts.

Lemma handle_toController (e : Event) (d : t) :
  exists ms, toController (handle e d) = toController d ++ ms
             /\ forallb isDisplayCommand ms = true.
Proof.
  destruct e as [ | | | | |keyCode value|m|data]; cbn [handle];
    try (now (exists []; rewrite app_nil_r));
    try (eexists; split; [reflexivity | reflexivity]).
  - destruct (keyCode =? 13)%Z.
    + eexists. split; reflexivity.
    + exists []. now rewrite app_nil_r.
  - destruct m as [cmd txt]. unfold onWindowMessage. cbn [command text].
    by_command cmd;
      try (now (exists []; rewrite app_nil_r));
      try (eexists; split; [reflexivity | reflexivity]).
    + destruct (JSON_parse txt) as [msgJSON|];
        [|now (exists []; rewrite app_nil_r)].
      destruct (jget "fullPath" msgJSON); eexists; split; reflexivity.
    + destruct (JSON_parse txt); exists []; now rewrite app_nil_r.
  - unfold onSocketMessage.
    destruct (JSON_parse data) as [parsedMessage|];
      [|now (exists []; rewrite app_nil_r)].
    destruct (jget "command" parsedMessage);
      try (now (exists []; rewrite app_nil_r)).
    destruct (s =? "foundNonInjectable").
    + eexists. split; reflexivity.
    + exists []. now rewrite app_nil_r.
Qed.

Lemma handleAll_toController (es : list Event) :
  forall d : t,
    forallb isDisplayCommand (toController d) = true ->
    forallb isDisplayCommand (toController (handleAll es d)) = true.
Proof.
  unfold handleAll.
  induction es as [|e es IH]; intros d F; cbn [fold_left]; [exact F|].
  apply IH. destruct (handle_toController e d) as [ms [E Fms]].
  now rewrite E, forallb_app, F, Fms.
Qed.

(** Whatever happens to the display surface after the script has run,
    every message it has posted to the controller carries one of the
    seven commands [add-history], [refresh-back-forward-buttons],
    [go-back], [go-forward], [open-browser], [go-to-file] and
    [update-path]. *)
Theorem display_posts_known_commands (locationPathname : string)
    (es : list Event) :
  Forall (fun m => In (command m) displayCommands)
    (toController (handleAll es (init locationPathname))).
Proof.
  apply Forall_forall. intros m Hin.
  pose proof (handleAll_toController es (init locationPathname) eq_refl) as F.
  rewrite forallb_forall in F. specialize (F m Hin).
  unfold isDisplayCommand in F. apply existsb_exists in F.
  destruct F as [c [Hc E]]. apply String.eqb_eq in E. now rewrite E.
Qed.

(** Clicks, key presses, the end of loading and socket messages only
    send: they leave the buttons, the url input and the kept state as
    they are. A window message changes a button only when its command is
    one of [enable-back], [disable-back], [enable-forward] and
    [disable-forward]. *)
Theorem page_changes_only_on_window_messages (e : Event) (d : t) :
  ((forall m, e <> WindowMessage m) ->
   back_disabled (handle e d) = back_disabled d
   /\ forward_disabled (handle e d) = forward_disabled d
   /\ url_input (handle e d) = url_input d
   /\ state_currentAddress (handle e d) = state_currentAddress d)
  /\
  (forall m, e = WindowMessage m -> isButtonCommand m = false ->
   back_disabled (handle e d) = back_disabled d
   /\ forward_disabled (handle e d) = forward_disabled d).
Proof.
  split.
  - intros Hnot.
    destruct e as [ | | | | |keyCode value|m|data]; cbn [handle];
      try (repeat split; reflexivity).
    + destruct (keyCode =? 13)%Z; repeat split; reflexivity.
    + now contradiction (Hnot m).
    + unfold onSocketMessage.
      destruct (JSON_parse data) as [parsedMessage|];
        [|repeat split; reflexivity].
      destruct (jget "command" parsedMessage);
        try (repeat split; reflexivity).
      destruct (s =? "foundNonInjectable"); repeat split; reflexivity.
  - intros m -> Hb. cbn [handle]. destruct m as [cmd txt].
    unfold isButtonCommand in Hb. cbn [command existsb] in Hb.
    rewrite orb_false_r in Hb.
    apply orb_false_iff in Hb. destruct Hb as [H1 Hb].
    apply orb_false_iff in Hb. destruct Hb as [H2 Hb].
    apply orb_false_iff in Hb. destruct Hb as [H3 H4].
    unfold onWindowMessage. cbn [command text].
    rewrite H1, H2, H3, H4.
    by_command cmd; try (split; reflexivity).
    + destruct (JSON_parse txt) as [msgJSON|]; [|split; reflexivity].
      destruct (jget "fullPath" msgJSON); split; reflexivity.
    + destruct (JSON_parse txt); split; reflexivity.
Qed.

Lemma page_changes_only_on_window_messages_witness :
  back_disabled (handle ClickBack (init "/")) = false
  /\ back_disabled
       (handle (WindowMessage {| command := "refresh"; text := JUndefined |})
          (init "/")) = false.
Proof.
  destruct (page_changes_only_on_window_messages ClickBack (init "/"))
    as [Hc _].
  destruct (page_changes_only_on_window_messages
              (WindowMessage {| command := "refresh"; text := JUndefined |})
              (init "/"))
    as [_ Hm].
  split.
  - apply Hc. discriminate.
  - apply (Hm _ eq_refl). reflexivity.
Defined.

Lemma handle_toFrame (e : Event) (d : t) :
  toFrame (handle e d)
  = toFrame d ++ (if isRefreshEvent e then ["refresh"] else []).
Proof.
  destruct e as [ | | | | |keyCode value|m|data];
    cbn [handle isRefreshEvent]; try (cbn; now rewrite ?app_nil_r).
  - destruct (keyCode =? 13)%Z; cbn; now rewrite app_nil_r.
  - destruct m as [cmd txt]. unfold onWindowMessage. cbn [command text].
    destruct (String.eqb_spec cmd "refresh") as [->|Hn]; [reflexivity|].
    rewrite app_nil_r. by_command cmd; try reflexivity.
    + destruct (JSON_parse txt) as [msgJSON|]; [|reflexivity].
      destruct (jget "fullPath" msgJSON); reflexivity.
    + destruct (JSON_parse txt); reflexivity.
  - unfold onSocketMessage. rewrite app_nil_r.
    destruct (JSON_parse data) as [parsedMessage|]; [|reflexivity].
    destruct (jget "command" parsedMessage); try reflexivity.
    destruct (s =? "foundNonInjectable"); reflexivity.
Qed.

(** The only thing the display surface ever posts into the frame after
    ['setup-parent-listener'] is ['refresh'], once for every click on the
    reload button and every [refresh] message, and for nothing else. *)
Theorem frame_only_gets_refresh (locationPathname : string)
    (es : list Event) :
  toFrame (handleAll es (init locationPathname))
  = "setup-parent-listener"
    :: repeat "refresh" (List.length (filter isRefreshEvent es)).
Proof.
  assert (G : forall d,
             toFrame (handleAll es d)
             = toFrame d
               ++ repeat "refresh" (List.length (filter isRefreshEvent es))).
  { unfold handleAll.
    induction es as [|e es IH]; intros d; cbn [fold_left filter].
    - cbn. now rewrite app_nil_r.
    - rewrite IH, handle_toFrame.
      destruct (isRefreshEvent e); cbn [List.length repeat].
      + now rewrite <- app_assoc.
      + now rewrite app_nil_r. }
  rewrite G. reflexivity.
Qed.

End DisplaySurfaceMore.

(** ** The commands of the extension *)

Module ExtensionFacts.

Import Extension.

Section Activate.

Variables File WorkspaceFolder ServerManager : Type.
Variable fsPath : File -> option string.
Variable SETTINGS_SECTION_ID : string.

Lemma dispatch_shapes (fuel : nat) (settings : Settings) :
  forall (command : string) (file : option File)
         (options : option (openFileOptions WorkspaceFolder ServerManager)),
    let calls :=
      dispatch fsPath SETTINGS_SECTION_ID fuel settings command file options in
    Forall (fun c => forall i f rel dbg ws p m,
                c <> handleOpenFile i f rel dbg ws p m) calls
    \/ (exists internal debug,
          internal && debug = false
          /\ calls
             = [sendTelemetryEvent "preview"
                  (previewProperties internal debug);
                handleOpenFile internal file (relativeFileStringOr options)
                  debug (workspaceOf options) (portOf options)
                  (managerOf options)]).
Proof.
  induction fuel as [|fuel IH]; intros command file options; cbv zeta.
  - left. constructor.
  - cbn [dispatch]. unfold registered. cbn [find fst snd].
    repeat match goal with
           | |- context [if ?b then _ else _] => destruct b
           end;
      cbn [flat_map app fst snd]; rewrite ?app_nil_r;
      try (left; repeat constructor; discriminate);
      try apply IH.
    + right. exists false, false. split; reflexivity.
    + right. exists true, false. split; reflexivity.
    + right. exists false, true. split; reflexivity.
    + left. destruct file; repeat constructor; discriminate.
Qed.

(** Whatever command of the extension is executed, with whatever
    arguments and settings and however deep commands execute one
    another: if a preview is opened, then the calls made are exactly the
    [preview] telemetry event and the call of [handleOpenFile], in this
    order; the event reports the type and debug flag of the call; and
    the call gets the file as it was passed, [relativeFileString] or
    false when it or the options are left out, and the workspace, port
    and manager of the options. *)
Theorem opened_preview_is_reported (fuel : nat) (settings : Settings)
    (command : string) (file : option File)
    (options : option (openFileOptions WorkspaceFolder ServerManager))
    (internal : bool) (f : option File) (isRelative debug : bool)
    (ws : option WorkspaceFolder) (p : option Z) (m : option ServerManager) :
  In (handleOpenFile internal f isRelative debug ws p m)
     (dispatch fsPath SETTINGS_SECTION_ID fuel settings command file options)
  ->
  dispatch fsPath SETTINGS_SECTION_ID fuel settings command file options
  = [sendTelemetryEvent "preview" (previewProperties internal debug);
     handleOpenFile internal file (relativeFileStringOr options) debug
       (workspaceOf options) (portOf options) (managerOf options)]
  /\ f = file
  /\ isRelative = relativeFileStringOr options
  /\ ws = workspaceOf options
  /\ p = portOf options
  /\ m = managerOf options.
Proof.
  intros Hin.
  destruct (dispatch_shapes fuel settings command file options)
    as [Hno | [i [d [_ E]]]].
  - rewrite Forall_forall in Hno. exfalso.
    now apply (Hno _ Hin internal f isRelative debug ws p m).
  - rewrite E in Hin. destruct Hin as [Hin | [Hin | []]];
      [discriminate|].
    inversion Hin; subst. rewrite E. repeat split; reflexivity.
Qed.

(** No command of the extension opens an internal debug preview:
    whatever is executed, a call of [handleOpenFile] with the debug flag
    set is a call for an external preview. *)
Theorem debug_preview_is_external (fuel : nat) (settings : Settings)
    (command : string) (file : option File)
    (options : option (openFileOptions WorkspaceFolder ServerManager))
    (internal : bool) (f : option File) (isRelative : bool)
    (ws : option WorkspaceFolder) (p : option Z) (m : option ServerManager) :
  In (handleOpenFile internal f isRelative true ws p m)
     (dispatch fsPath SETTINGS_SECTION_ID fuel settings command file options)
  ->
  internal = false.
Proof.
  intros Hin.
  destruct (dispatch_shapes fuel settings command file options)
    as [Hno | [i [d [Hid E]]]].
  - rewrite Forall_forall in Hno. exfalso.
    now apply (Hno _ Hin internal f isRelative true ws p m).
  - rewrite E in Hin. destruct Hin as [Hin | [Hin | []]];
      [discriminate|].
    inversion Hin; subst. now rewrite andb_true_r in Hid.
Qed.

Lemma eqb_append_cancel (p a b : string) :
  String.eqb (p ++ a) (p ++ b) = String.eqb a b.
Proof.
  induction p as [|c p IH]; [reflexivity|].
  cbn [append String.eqb]. now rewrite Ascii.eqb_refl.
Qed.

Ltac find_command :=
  cbn [dispatch]; unfold registered; cbn [find fst];
  rewrite !eqb_append_cancel;
  repeat match goal with
         | |- context [String.eqb ?a ?b] =>
             let v := eval vm_compute in (String.eqb a b) in
             change (String.eqb a b) with v
         end;
  cbn [flat_map app fst snd].

(** The command [start.preview.atFile] opens the preview the settings
    name: an internal one when the preview type is [internalPreview], an
    external one when it is [externalPreview]; and
    [start.debugPreview.atFile] opens an external debug preview. Each
    passes its file and options on. *)
Theorem preview_commands_are_forwarded (fuel : nat) (settings : Settings)
    (file : option File)
    (options : option (openFileOptions WorkspaceFolder ServerManager)) :
  let run command :=
    dispatch fsPath SETTINGS_SECTION_ID (S (S fuel)) settings
      (SETTINGS_SECTION_ID ++ command)%string file options in
  let opens internal debug :=
    [sendTelemetryEvent "preview" (previewProperties internal debug);
     handleOpenFile internal file (relativeFileStringOr options) debug
       (workspaceOf options) (portOf options) (managerOf options)] in
  (GetPreviewType settings = "internalPreview" ->
   run ".start.preview.atFile" = opens true false)
  /\ (GetPreviewType settings = "externalPreview" ->
      run ".start.preview.atFile" = opens false false)
  /\ run ".start.debugPreview.atFile" = opens false true.
Proof.
  cbv zeta. split; [|split].
  - intros E. find_command. rewrite E. cbn [append]. find_command.
    reflexivity.
  - intros E. find_command. rewrite E. cbn [append]. find_command.
    reflexivity.
  - find_command. find_command. reflexivity.
Qed.

End Activate.

Lemma opened_preview_is_reported_witness :
  dispatch (fun f : string => Some f) "livePreview" 2
    (mkSettings "" "internalPreview") "livePreview.start.preview.atFile"
    (Some "index.html") (None : option (openFileOptions string unit))
  = [sendTelemetryEvent "preview"
       [("type", "internal"); ("location", "atFile")];
     handleOpenFile true (Some "index.html") false false None None None].
Proof.
  apply (opened_preview_is_reported string string unit
           (fun f : string => Some f) "livePreview" 2
           (mkSettings "" "internalPreview")
           "livePreview.start.preview.atFile" (Some "index.html") None
           true (Some "index.html") false false None None None).
  right. left. reflexivity.
Defined.

Lemma debug_preview_is_external_witness :
  In (handleOpenFile false (Some "index.html") false true None None None)
     (dispatch (fun f : string => Some f) "livePreview" 2
        (mkSettings "" "internalPreview")
        "livePreview.start.debugPreview.atFile"
        (Some "index.html") (None : option (openFileOptions string unit)))
  /\ false = false.
Proof.
  assert (Hin : In (handleOpenFile false (Some "index.html") false true
                      None None None)
                   (dispatch (fun f : string => Some f) "livePreview" 2
                      (mkSettings "" "internalPreview")
                      "livePreview.start.debugPreview.atFile"
                      (Some "index.html")
                      (None : option (openFileOptions string unit))))
    by (right; left; reflexivity).
  split; [exact Hin|].
  exact (debug_preview_is_external string string unit
           (fun f : string => Some f) "livePreview" 2
           (mkSettings "" "internalPreview")
           "livePreview.start.debugPreview.atFile" (Some "index.html") None
           false (Some "index.html") false None None None Hin).
Defined.

Lemma preview_commands_are_forwarded_witness :
  dispatch (fun f : string => Some f) "livePreview" 2
    (mkSettings "" "externalPreview") "livePreview.start.preview.atFile"
    (Some "index.html") (None : option (openFileOptions string unit))
  = [sendTelemetryEvent "preview"
       [("type", "external"); ("location", "atFile"); ("debug", "false")];
     handleOpenFile false (Some "index.html") false false None None None].
Proof.
  apply (proj1 (proj2 (preview_commands_are_forwarded string string unit
                         (fun f : string => Some f) "livePreview" 0
                         (mkSettings "" "externalPreview")
                         (Some "index.html") None))).
  reflexivity.
Defined.

End ExtensionFacts.
